(** * Botter: the extraction-library codec and the capture loop

    A shallow embedding of [Models/Library.py] (the encoder
    [Library.create_library], the decoder [Library.load_library] and the
    constructor [Library.__init__]) and of the window of [CreateView.py]
    (its constructor, the capture loop and the handlers of its buttons),
    together with the properties of the design document that can be
    stated over them and further properties of the code.

    Python strings are [string]s, a character being one [ascii]; Python
    integers are [Z]; a Python list is a [list].  Functions that can raise
    return a [result].  The entries of a box are integers.

    Of the standard library of Python the embedding holds what the
    program calls: [str.format], [file.write] and [file.readlines],
    [os.path.normpath] and [os.path.basename] of a POSIX host, and
    [ast.literal_eval] and [eval] on a fragment of the expressions,
    outside of which their result is [Unmodelled].  The class
    [BoxFunction] is imported from [Models/BoxFunction.py], which is not
    among the sources: its constructor follows the design document on
    the rules that the document describes. *)

From Stdlib Require Import ZArith List Bool Lia String Ascii.
From Stdlib Require Import Numbers.DecimalString Numbers.DecimalFacts Numbers.DecimalZ.
Import ListNotations.

Open Scope list_scope.
Open Scope string_scope.

(** ** Outcomes of Python code *)

Inductive exn : Type :=
| SyntaxError
| ValueError
| TypeError
| KeyError
| IndexError
| UnboundLocalError
| FileNotFoundError
| DuplicateName
| UnknownKind
| MalformedMetadata.

(** [Unmodelled] marks an input that leaves the fragment of Python
    embedded here (escapes in string literals, operators, floats, names
    of builtins ...): nothing is claimed about it.  [OutOfFuel] is the
    exhaustion of the recursion bound of a loop or of the parser. *)
Inductive result (A : Type) : Type :=
| Ok (a : A)
| Raise (e : exn)
| Unmodelled
| OutOfFuel.

Arguments Ok {A} a.
Arguments Raise {A} e.
Arguments Unmodelled {A}.
Arguments OutOfFuel {A}.

Definition rbind {A B} (r : result A) (k : A -> result B) : result B :=
  match r with
  | Ok a => k a
  | Raise e => Raise e
  | Unmodelled => Unmodelled
  | OutOfFuel => OutOfFuel
  end.


Declare Scope result_scope.
Delimit Scope result_scope with result.
Notation "' p <- r ;; k" := (rbind r (fun p => k))
  (at level 61, p pattern, r at next level, right associativity) : result_scope.
Notation "x <- r ;; k" := (rbind r (fun x => k))
  (at level 61, r at next level, right associativity) : result_scope.

(** ** Python values *)

(** The object built by [BoxFunction(name, type, box, image)]; the encoder
    reads the four attributes [name], [type], [box] and [image]. *)
Record BoxFunction : Type := mkBoxFunction {
  name : string;
  type : string;
  box : list Z;
  image : option string   (* [None] or a path *)
}.

#[warnings="-register-all"]
Inductive pyval : Type :=
| VNone
| VBool (b : bool)
| VInt (z : Z)
| VStr (s : string)
| VList (l : list pyval)
| VTuple (l : list pyval)
| VDict (kvs : list (pyval * pyval))
| VBoxFunction (f : BoxFunction).

(** ** Characters and strings *)

Definition nl : ascii := "010"%char.
Definition cr : ascii := "013"%char.
Definition tab : ascii := "009"%char.
Definition nul : ascii := "000"%char.
Definition squote : ascii := "'"%char.
Definition dquote : ascii := ascii_of_nat 34.
Definition backslash : ascii := "\"%char.

Definition NL : string := String nl "".

Definition is_digit (c : ascii) : bool :=
  let n := nat_of_ascii c in (48 <=? n)%nat && (n <=? 57)%nat.

Definition is_ident_start (c : ascii) : bool :=
  let n := nat_of_ascii c in
  ((65 <=? n)%nat && (n <=? 90)%nat) || ((97 <=? n)%nat && (n <=? 122)%nat)
  || (n =? 95)%nat.

Definition is_ident_char (c : ascii) : bool := is_ident_start c || is_digit c.

(** [s[:n]] and [s[n:]]. *)
Fixpoint take (n : nat) (s : string) : string :=
  match n, s with
  | S n', String c r => String c (take n' r)
  | _, _ => ""
  end.

Fixpoint drop (n : nat) (s : string) : string :=
  match n, s with
  | S n', String _ r => drop n' r
  | _, _ => s
  end.

Fixpoint string_forallb (p : ascii -> bool) (s : string) : bool :=
  match s with
  | "" => true
  | String c r => p c && string_forallb p r
  end.

(** Longest prefix of characters satisfying [p], and the rest. *)
Fixpoint span (p : ascii -> bool) (s : string) : string * string :=
  match s with
  | String c r =>
      if p c then let (a, b) := span p r in (String c a, b) else ("", s)
  | "" => ("", "")
  end.

(** [str(z)] for an integer. *)
Definition str_int (z : Z) : string := NilEmpty.string_of_int (Z.to_int z).

(** [str(l)] for a list of integers: [[1, 2, 3]]. *)
Fixpoint join (sep : string) (l : list string) : string :=
  match l with
  | [] => ""
  | [x] => x
  | x :: r => x ++ sep ++ join sep r
  end.

Definition str_int_list (l : list Z) : string :=
  "[" ++ join ", " (map str_int l) ++ "]".

(** ** [str.format] with automatic numbering

    Only the replacement field [{}] and the escapes [{{] and [}}] are
    embedded; a missing argument raises, surplus arguments are ignored. *)
Fixpoint format (tpl : string) (args : list string) : result string :=
  match tpl with
  | "" => Ok ""
  | String c r =>
      if (c =? "{")%char then
        match r with
        | "" => Raise ValueError
        | String c2 r2 =>
            if (c2 =? "}")%char then
              match args with
              | [] => Raise IndexError
              | a :: args' => (s <- format r2 args' ;; Ok (a ++ s))%result
              end
            else if (c2 =? "{")%char then
              (s <- format r2 args ;; Ok (String "{" s))%result
            else Unmodelled
        end
      else if (c =? "}")%char then
        match r with
        | "" => Raise ValueError
        | String c2 r2 =>
            if (c2 =? "}")%char then
              (s <- format r2 args ;; Ok (String "}" s))%result
            else Raise ValueError
        end
      else (s <- format r args ;; Ok (String c s))%result
  end.

(** ** Python expressions: the embedded fragment

    Constants, unary minus, list, tuple and dict displays, names and
    calls of a name with positional arguments. *)

#[warnings="-register-all"]
Inductive expr : Type :=
| ENone
| EBool (b : bool)
| EInt (z : Z)
| EStr (s : string)
| ENeg (e : expr)
| EList (es : list expr)
| ETuple (es : list expr)
| EDict (kvs : list (expr * expr))
| EName (id : string)
| ECall (f : string) (args : list expr).

Fixpoint skip_ws (s : string) : string :=
  match s with
  | String c r => if (c =? " ")%char || (c =? tab)%char then skip_ws r else s
  | "" => ""
  end.

(** The body of a string literal opened by the quote [q]: up to the next
    [q].  Escapes are outside the fragment. *)
Fixpoint read_quoted (q : ascii) (s : string) : result (string * string) :=
  match s with
  | "" => Raise SyntaxError
  | String c r =>
      if (c =? q)%char then Ok ("", r)
      else if (c =? nl)%char then Raise SyntaxError
      else if (c =? backslash)%char || (c =? cr)%char || (c =? nul)%char
      then Unmodelled
      else ('(a, b) <- read_quoted q r ;; Ok (String c a, b))%result
  end.

(** A decimal integer literal; a leading zero, a fraction, an exponent,
    an underscore or a base prefix leave the fragment. *)
Definition read_number (s : string) : result (Z * string) :=
  let (ds, r) := span is_digit s in
  let follows_ok :=
    match r with
    | String c _ => negb (is_ident_char c || (c =? ".")%char)
    | "" => true
    end in
  let leading_ok :=
    match ds with
    | String c (String _ _) => negb (c =? "0")%char
    | _ => true
    end in
  if follows_ok && leading_ok then
    match NilEmpty.uint_of_string ds with
    | Some u => Ok (Z.of_uint u, r)
    | None => Unmodelled
    end
  else Unmodelled.

Definition keywords : list string :=
  ["and"; "as"; "assert"; "async"; "await"; "break"; "class"; "continue";
   "def"; "del"; "elif"; "else"; "except"; "finally"; "for"; "from";
   "global"; "if"; "import"; "in"; "is"; "lambda"; "nonlocal"; "not"; "or";
   "pass"; "raise"; "return"; "try"; "while"; "with"; "yield"].

Definition is_keyword (id : string) : bool := existsb (String.eqb id) keywords.

Fixpoint parse_expr (fuel : nat) (s : string) {struct fuel}
  : result (expr * string) :=
  match fuel with
  | O => OutOfFuel
  | S fuel' =>
    match skip_ws s with
    | "" => Raise SyntaxError
    | String c r =>
      if (c =? "-")%char then
        ('(e, r') <- parse_expr fuel' r ;; Ok (ENeg e, r'))%result
      else if is_digit c then
        ('(z, r') <- read_number (String c r) ;; Ok (EInt z, skip_ws r'))%result
      else if (c =? squote)%char || (c =? dquote)%char then
        ('(b, r') <- read_quoted c r ;; Ok (EStr b, skip_ws r'))%result
      else if (c =? "[")%char then
        ('(es, _, r') <- parse_items fuel' "]" r ;; Ok (EList es, skip_ws r'))%result
      else if (c =? "(")%char then
        ('(es, comma, r') <- parse_items fuel' ")" r ;;
         match es, comma with
         | [e], false => Ok (e, skip_ws r')
         | _, _ => Ok (ETuple es, skip_ws r')
         end)%result
      else if (c =? "{")%char then
        ('(kvs, r') <- parse_pairs fuel' r ;; Ok (EDict kvs, skip_ws r'))%result
      else if is_ident_start c then
        let (id, r') := span is_ident_char (String c r) in
        if is_keyword id then Unmodelled
        else
          match skip_ws r' with
          | String "(" r'' =>
              if (id =? "None") || (id =? "True") || (id =? "False")
              then Unmodelled
              else ('(args, _, r3) <- parse_items fuel' ")" r'' ;;
                    Ok (ECall id args, skip_ws r3))%result
          | rest =>
              if id =? "None" then Ok (ENone, rest)
              else if id =? "True" then Ok (EBool true, rest)
              else if id =? "False" then Ok (EBool false, rest)
              else Ok (EName id, rest)
          end
      else Unmodelled
    end
  end

(** Comma-separated expressions up to [close]; the boolean tells whether
    a comma was read (so that [(x)] and [(x,)] differ). *)
with parse_items (fuel : nat) (close : ascii) (s : string) {struct fuel}
  : result (list expr * bool * string) :=
  match fuel with
  | O => OutOfFuel
  | S fuel' =>
    match skip_ws s with
    | "" => Raise SyntaxError
    | String c r =>
      if (c =? close)%char then Ok ([], false, r)
      else
        ('(e, r1) <- parse_expr fuel' (String c r) ;;
         match r1 with
         | "" => Raise SyntaxError
         | String c1 r2 =>
             if (c1 =? ",")%char then
               ('(es, _, r3) <- parse_items fuel' close r2 ;; Ok (e :: es, true, r3))
             else if (c1 =? close)%char then Ok ([e], false, r2)
             else Unmodelled
         end)%result
    end
  end

(** [key: value] pairs up to the closing brace. *)
with parse_pairs (fuel : nat) (s : string) {struct fuel}
  : result (list (expr * expr) * string) :=
  match fuel with
  | O => OutOfFuel
  | S fuel' =>
    match skip_ws s with
    | "" => Raise SyntaxError
    | String c r =>
      if (c =? "}")%char then Ok ([], r)
      else
        ('(k, r1) <- parse_expr fuel' (String c r) ;;
         match r1 with
         | String ":" r2 =>
             '(v, r3) <- parse_expr fuel' r2 ;;
             match r3 with
             | "" => Raise SyntaxError
             | String c3 r4 =>
                 if (c3 =? ",")%char then
                   ('(kvs, r5) <- parse_pairs fuel' r4 ;; Ok ((k, v) :: kvs, r5))
                 else if (c3 =? "}")%char then Ok ([(k, v)], r4)
                 else Unmodelled
             end
         | "" => Raise SyntaxError
         | _ => Unmodelled
         end)%result
    end
  end.

(** A whole source string: one expression, then nothing but the end of
    the line.  Every step of the parser consumes a character, so the
    length of the source bounds the recursion. *)
Definition parse (src : string) : result expr :=
  ('(e, r) <- parse_expr (S (String.length src)) src ;;
   if (r =? "") || (r =? NL) then Ok e else Unmodelled)%result.

(** ** Evaluation *)

Fixpoint hashable (v : pyval) : bool :=
  match v with
  | VList _ | VDict _ => false
  | VTuple l => forallb hashable l
  | _ => true
  end.

(** [ast.literal_eval] after parsing: constants, a minus sign on a
    number, and displays of literals; every other node is malformed. *)
Fixpoint literal (e : expr) : result pyval :=
  match e with
  | ENone => Ok VNone
  | EBool b => Ok (VBool b)
  | EInt z => Ok (VInt z)
  | EStr s => Ok (VStr s)
  | ENeg (EInt z) => Ok (VInt (- z))
  | ENeg _ => Raise ValueError
  | EList es =>
      (l <- (fix go (es : list expr) : result (list pyval) :=
               match es with
               | [] => Ok []
               | x :: r => (v <- literal x ;; vs <- go r ;; Ok (v :: vs))
               end) es ;;
       Ok (VList l))%result
  | ETuple es =>
      (l <- (fix go (es : list expr) : result (list pyval) :=
               match es with
               | [] => Ok []
               | x :: r => (v <- literal x ;; vs <- go r ;; Ok (v :: vs))
               end) es ;;
       Ok (VTuple l))%result
  | EDict kvs =>
      (l <- (fix go (kvs : list (expr * expr)) : result (list (pyval * pyval)) :=
               match kvs with
               | [] => Ok []
               | (k, v) :: r =>
                   (kv <- literal k ;; vv <- literal v ;;
                    if hashable kv then (rest <- go r ;; Ok ((kv, vv) :: rest))
                    else Raise TypeError)
               end) kvs ;;
       Ok (VDict l))%result
  | EName _ => Raise ValueError
  | ECall f args =>
      match args with
      | [] => if f =? "set" then Unmodelled else Raise ValueError
      | _ => Raise ValueError
      end
  end.

Definition literal_eval (src : string) : result pyval :=
  (e <- parse src ;; literal e)%result.

(** The closed set of extraction kinds and the strings that name them in
    the encoder's dispatch ([function.type == "string"] ...). *)
Inductive ExtractionKind : Type := Text | Number | TemplateMatch.

Definition kind_of_string (s : string) : option ExtractionKind :=
  if s =? "string" then Some Text
  else if s =? "number" then Some Number
  else if s =? "position" then Some TemplateMatch
  else None.

Fixpoint ints_of (l : list pyval) : option (list Z) :=
  match l with
  | [] => Some []
  | VInt z :: r => option_map (cons z) (ints_of r)
  | _ :: _ => None
  end.

(** Modelled from the spec: the constructor of [BoxFunction]
    ([Models/BoxFunction.py] is not part of the sources).  A rule is the
    tuple (name, kind, box, templateImage): the kind belongs to the
    closed set, the box is a rectangle (x, y, width, height), the
    template image is a path or empty.  On such arguments the
    constructor returns the rule.  What it does with other arguments is
    not known (the design document gives the check of the kind to the
    decoder and says nothing of the constructor): they are outside the
    model. *)
Definition BoxFunction_new (args : list pyval) : result pyval :=
  match args with
  | [VStr ns; VStr ks; VList bl; i] =>
      match kind_of_string ks, ints_of bl, i with
      | Some _, Some [x; y; w; h], VNone =>
          Ok (VBoxFunction (mkBoxFunction ns ks [x; y; w; h] None))
      | Some _, Some [x; y; w; h], VStr path =>
          Ok (VBoxFunction (mkBoxFunction ns ks [x; y; w; h] (Some path)))
      | _, _, _ => Unmodelled
      end
  | _ => Unmodelled
  end.

(** The builtin [eval] in the globals of [Models/Library.py], where the
    name [BoxFunction] is bound to the class.  [load_library] calls it
    in its own frame, where [lines], [i], [file], [destination] and
    [functions] are bound as well: an expression with a name, or with a
    call of anything but the class, can read them and is outside the
    fragment.  An expression of the fragment has the same value in every
    frame. *)
Fixpoint eval_expr (e : expr) : result pyval :=
  match e with
  | ENone => Ok VNone
  | EBool b => Ok (VBool b)
  | EInt z => Ok (VInt z)
  | EStr s => Ok (VStr s)
  | ENeg e' =>
      (v <- eval_expr e' ;;
       match v with
       | VInt z => Ok (VInt (- z))
       | VBool b => Ok (VInt (if b then -1 else 0))
       | VBoxFunction _ => Unmodelled
       | _ => Raise TypeError
       end)%result
  | EList es =>
      (l <- (fix go (es : list expr) : result (list pyval) :=
               match es with
               | [] => Ok []
               | x :: r => (v <- eval_expr x ;; vs <- go r ;; Ok (v :: vs))
               end) es ;;
       Ok (VList l))%result
  | ETuple es =>
      (l <- (fix go (es : list expr) : result (list pyval) :=
               match es with
               | [] => Ok []
               | x :: r => (v <- eval_expr x ;; vs <- go r ;; Ok (v :: vs))
               end) es ;;
       Ok (VTuple l))%result
  | EDict kvs =>
      (l <- (fix go (kvs : list (expr * expr)) : result (list (pyval * pyval)) :=
               match kvs with
               | [] => Ok []
               | (k, v) :: r =>
                   (kv <- eval_expr k ;; vv <- eval_expr v ;;
                    if hashable kv then (rest <- go r ;; Ok ((kv, vv) :: rest))
                    else Raise TypeError)
               end) kvs ;;
       Ok (VDict l))%result
  | EName _ => Unmodelled
  | ECall f args =>
      if f =? "BoxFunction" then
        (vs <- (fix go (es : list expr) : result (list pyval) :=
                  match es with
                  | [] => Ok []
                  | x :: r => (v <- eval_expr x ;; vs <- go r ;; Ok (v :: vs))
                  end) args ;;
         BoxFunction_new vs)%result
      else Unmodelled
  end.

Definition eval (src : string) : result pyval :=
  (e <- parse src ;; eval_expr e)%result.

(** [d[key]] for a string key.  A dict display keeps its pairs in source
    order and the last binding of a key wins. *)
Fixpoint dict_get (key : string) (kvs : list (pyval * pyval)) : option pyval :=
  match kvs with
  | [] => None
  | (k, v) :: r =>
      match dict_get key r with
      | Some v' => Some v'
      | None => match k with
                | VStr s => if s =? key then Some v else None
                | _ => None
                end
      end
  end.

Definition subscript (v : pyval) (key : string) : result pyval :=
  match v with
  | VDict kvs => match dict_get key kvs with
                 | Some x => Ok x
                 | None => Raise KeyError
                 end
  | VBoxFunction _ => Unmodelled
  | _ => Raise TypeError
  end.

(** ** Files

    A file system maps a path to the text of the file.  A file opened
    for writing is the list of the chunks written so far; its text is
    their concatenation, and it is kept when the writer raises (the
    [with] block closes the file). *)

Definition filesystem : Type := list (string * string).

Fixpoint fs_read (path : string) (fs : filesystem) : option string :=
  match fs with
  | [] => None
  | (p, text) :: r => if p =? path then Some text else fs_read path r
  end.

Definition fs_write (path text : string) (fs : filesystem) : filesystem :=
  (path, text) :: fs.

(** [file.readlines()] in text mode: the line ends ["\n"], ["\r"] and
    ["\r\n"] all end a line and are read as ["\n"]. *)
Fixpoint readlines (text : string) : list string :=
  match text with
  | "" => []
  | String c r =>
      if (c =? nl)%char then NL :: readlines r
      else if (c =? cr)%char then
        match r with
        | String c' r' => if (c' =? nl)%char then NL :: readlines r'
                          else NL :: readlines r
        | "" => [NL]
        end
      else
        match readlines r with
        | [] => [String c ""]
        | l :: ls => String c l :: ls
        end
  end.

Definition writer (A : Type) : Type := list string -> list string * result A.

Definition wret {A} (a : A) : writer A := fun file => (file, Ok a).

Definition wbind {A B} (m : writer A) (k : A -> writer B) : writer B :=
  fun file =>
    match m file with
    | (file', Ok a) => k a file'
    | (file', Raise e) => (file', Raise e)
    | (file', Unmodelled) => (file', Unmodelled)
    | (file', OutOfFuel) => (file', OutOfFuel)
    end.

Definition write (chunk : string) : writer unit :=
  fun file => ((file ++ [chunk])%list, Ok tt).

Definition lift {A} (r : result A) : writer A := fun file => (file, r).

Declare Scope writer_scope.
Delimit Scope writer_scope with writer.
Notation "x <- m ;; k" := (wbind m (fun x => k))
  (at level 61, m at next level, right associativity) : writer_scope.
Notation "m ;; k" := (wbind m (fun _ => k))
  (at level 61, right associativity) : writer_scope.

(** The lines of a chunk of generated text, each closed by a newline. *)
Fixpoint lns (l : list string) : string :=
  match l with
  | [] => ""
  | x :: r => x ++ NL ++ lns r
  end.

Definition DQ : string := String dquote "".

(** [l[i]] for a non-negative index. *)
Definition item {A} (l : list A) (i : nat) : result A :=
  match nth_error l i with
  | Some x => Ok x
  | None => Raise IndexError
  end.

(** ** [os.path] on a POSIX host *)

Fixpoint split_slash (s : string) : list string :=
  match s with
  | "" => [""]
  | String c r =>
      if (c =? "/")%char then "" :: split_slash r
      else match split_slash r with
           | [] => [String c ""]
           | x :: xs => String c x :: xs
           end
  end.

(** The loop of [normpath] over the components; [new_comps] is kept with
    its last element first. *)
Fixpoint norm_comps (initial_slashes : nat) (comps new_comps : list string)
  : list string :=
  match comps with
  | [] => rev new_comps
  | comp :: rest =>
      if (comp =? "") || (comp =? ".") then
        norm_comps initial_slashes rest new_comps
      else if negb (comp =? "..")
              || ((initial_slashes =? 0)%nat && match new_comps with [] => true | _ => false end)
              || match new_comps with last :: _ => last =? ".." | [] => false end
      then norm_comps initial_slashes rest (comp :: new_comps)
      else norm_comps initial_slashes rest (List.tl new_comps)
  end.

Fixpoint repeat_string (n : nat) (s : string) : string :=
  match n with
  | O => ""
  | S n' => s ++ repeat_string n' s
  end.

Definition normpath (path : string) : string :=
  if path =? "" then "."
  else
    let initial_slashes :=
      if prefix "/" path then
        if prefix "//" path && negb (prefix "///" path) then 2%nat else 1%nat
      else 0%nat in
    let comps := norm_comps initial_slashes (split_slash path) [] in
    let p := repeat_string initial_slashes "/" ++ join "/" comps in
    if p =? "" then "." else p.

Definition basename (p : string) : string := List.last (split_slash p) "".

(** ** [Models/Library.py] *)

Record Library : Type := mkLibrary {
  destination : string;
  screen_box : option (list Z);   (* [None] or a list of integers *)
  directory : string;
  functions : list BoxFunction
}.

(** [Library.__init__]: the four arguments are stored as they come. *)
Definition Library_init (destination : string) (screen_box : option (list Z))
    (directory : string) (functions : list BoxFunction) : result Library :=
  Ok (mkLibrary destination screen_box directory functions).

(** [str(screen_box)] and the truth value tested by [if screen_box:]. *)
Definition str_screen_box (sb : option (list Z)) : string :=
  match sb with
  | None => "None"
  | Some l => str_int_list l
  end.

Definition truthy (sb : option (list Z)) : bool :=
  match sb with
  | Some (_ :: _) => true
  | _ => false
  end.

Definition str_image (i : option string) : string :=
  match i with
  | None => "None"
  | Some path => path
  end.

Definition imports : string :=
  lns ["import random";
       "import numpy";
       "import cv2";
       "import pyocr";
       "import pyocr.builders";
       "from PIL import Image, ImageFilter";
       "from mss import mss"].

Definition class_template : string :=
  lns ["class {}(object):";
       "# c {{'screen_box': {}, 'directory': '{}'}}";
       "";
       "    def __init__(self):";
       "        self.img = None";
       "        tools = pyocr.get_available_tools()";
       "        if len(tools) == 0:";
       "            print('No OCR tool found')";
       "            sys.exit(1)";
       "        self.tool = tools[0]";
       "        print(" ++ DQ ++ "Will use tool '%s'" ++ DQ ++ " % (self.tool.get_name()))"].

Definition function_template : string :=
  lns ["    def {}(self):";
       "# f BoxFunction('{}', '{}', {}, {})";
       "cropped = self.img.crop([{}, {}, {}, {}])"].

Definition ocr_call (img : string) : string :=
  "self.tool.image_to_string(" ++ img ++ ", lang=" ++ DQ ++ "eng" ++ DQ
  ++ ", builder=pyocr.builders.TextBuilder())".

(** The steps of the body generated for the kind ["number"], one line of
    generated code each. *)
Inductive number_step : Type :=
| EdgeEnhance
| ToArray
| Upscale (fx fy : Z)
| FromArray
| Grayscale
| Threshold (cutoff : Z)
| OcrFloat.

Definition number_text (st : number_step) : string :=
  match st with
  | EdgeEnhance => "        im = cropped.filter(ImageFilter.EDGE_ENHANCE_MORE)"
  | ToArray => "        npcropped = numpy.array(im)[:, :, ::-1].copy()"
  | Upscale fx fy =>
      "        npcropped = cv2.resize(npcropped, (0,0), fx=" ++ str_int fx
      ++ ", fy=" ++ str_int fy ++ ")"
  | FromArray => "        im = Image.fromarray(npcropped)"
  | Grayscale => "        im = im.convert('L')"
  | Threshold cutoff =>
      "        im = im.point(lambda x: 0 if x<" ++ str_int cutoff
      ++ " else 255, '1')"
  | OcrFloat => "        return float(" ++ ocr_call "im" ++ ")"
  end.

Definition number_line (st : number_step) : string := number_text st ++ NL.

Definition number_body : list number_step :=
  [EdgeEnhance; ToArray; Upscale 3 3; FromArray; Grayscale; Threshold 100;
   OcrFloat].

(** The function that the generated [lambda x: 0 if x<c else 255] is. *)
Definition point (cutoff x : Z) : Z := if (x <? cutoff)%Z then 0%Z else 255%Z.

Fixpoint write_all (chunks : list string) : writer unit :=
  match chunks with
  | [] => wret tt
  | c :: r => (write c ;; write_all r)%writer
  end.

(** One turn of [for function in functions]: the format arguments are
    evaluated (the subscripts [function.box[0]] ... raise on a short
    box), then the chunk is written. *)
Definition write_function (function : BoxFunction) : writer unit :=
  (x <- lift (item (box function) 0) ;;
   y <- lift (item (box function) 1) ;;
   w <- lift (item (box function) 2) ;;
   h <- lift (item (box function) 3) ;;
   s <- lift (format function_template
                [name function;
                 name function; type function; str_int_list (box function);
                 str_image (image function);
                 str_int x; str_int y; str_int (x + w); str_int (y + h)]) ;;
   write s)%writer.

(** The loop; its value is the binding of the loop variable [function]
    when the loop is left: the last element, or none when the loop body
    never ran. *)
Fixpoint for_functions (functions : list BoxFunction)
    (function : option BoxFunction) : writer (option BoxFunction) :=
  match functions with
  | [] => wret function
  | f :: rest => (write_function f ;; for_functions rest (Some f))%writer
  end.

(** The [if]/[elif] chain on [function.type], which stands after the
    loop. *)
Definition write_body (function : option BoxFunction) : writer unit :=
  match function with
  | None => lift (Raise UnboundLocalError)
  | Some function =>
      if type function =? "string" then
        write ("        return " ++ ocr_call "cropped" ++ NL)
      else if type function =? "number" then
        write_all (map number_line number_body)
      else if type function =? "position" then
        (s <- lift (format ("        image = cv2.(" ++ DQ ++ "{}" ++ DQ ++ ")" ++ NL)
                      [str_image (image function)]) ;;
         write s ;;
         write ("        cropped = numpy.array(cropped)[:, :, ::-1].copy()" ++ NL) ;;
         write ("        " ++ NL) ;;
         write ("        res = cv2.matchTemplate(cropped, image, cv2.TM_CCOEFF_NORMED)" ++ NL) ;;
         write ("        threshold = 0.8" ++ NL) ;;
         write ("        loc = np.where( res >= threshold)" ++ NL) ;;
         write ("        return loc" ++ NL) ;;
         write NL)%writer
      else wret tt
  end.

(** The body of the [with] block of [Library.create_library]: what is
    written to the file once it is open. *)
Definition write_library (destination : string) (screen_box : option (list Z))
    (directory : string) (functions : list BoxFunction) : writer unit :=
  let name := basename (normpath destination) in
  (write imports ;;
   write (NL ++ NL) ;;
   s <- lift (format class_template
                [name; str_screen_box screen_box; directory]) ;;
   write s ;;
   write NL ;;
   write (lns ["    def grab_screen(self):";
               "        with mss() as sct:"]) ;;
   (if truthy screen_box then
      (s <- lift (format (lns ["            img = sct.grab({})"])
                    [str_screen_box screen_box]) ;;
       write s)
    else write (lns ["            img = sct.shot()"])) ;;
   write (lns ["        self.img = Image.frombytes('RGB', img.size, img.rgb)";
               "        return self.img"]) ;;
   write NL ;;
   function <- for_functions functions None ;;
   write_body function ;;
   write NL ;;
   write "" ;;
   write "" ;;
   write "" ;;
   write "")%writer.

(** [Library.create_library]: the file [destination + ".py"] receives
    what was written, also when the writer raises.  Opening the file
    for writing succeeds in this file system, which has no folders, no
    permissions and no limit of space: the errors of [open] and of
    [file.write] ([FileNotFoundError], [PermissionError] ...) are
    outside the model. *)
Definition create_library (fs : filesystem) (destination : string)
    (screen_box : option (list Z)) (directory : string)
    (functions : list BoxFunction) : filesystem * result unit :=
  let (file, r) := write_library destination screen_box directory functions [] in
  (fs_write (destination ++ ".py") (String.concat "" file) fs, r).

(** The loop of [Library.load_library] over the lines read; [i] is the
    line index.  Every turn advances [i], so [length lines] turns
    suffice.  The calls of [print] are left out. *)
Fixpoint load_loop (fuel : nat) (lines : list string) (i : nat)
    (directory : pyval) (functions : list pyval) {struct fuel}
  : result (pyval * list pyval) :=
  if (i <? List.length lines)%nat then
    match fuel with
    | O => OutOfFuel
    | S fuel' =>
        let line := nth i lines "" in
        if (String.length line <? 4)%nat then
          load_loop fuel' lines (i + 1) directory functions
        else if take 3 line =? "# c" then
          (class_data <- literal_eval (drop 4 line) ;;
           directory' <- subscript class_data "directory" ;;
           load_loop fuel' lines (i + 8 + 1) directory' functions)%result
        else if take 3 line =? "# f" then
          (f <- eval (drop 4 line) ;;
           load_loop fuel' lines (i + 2 + 1) directory (functions ++ [f])%list)%result
        else load_loop fuel' lines (i + 1) directory functions
    end
  else Ok (directory, functions).

Definition load_lines (lines : list string) : result pyval :=
  ('(directory, functions) <- load_loop (List.length lines) lines 3 VNone [] ;;
   Ok (VTuple [directory; VList functions]))%result.

(** [Library.load_library]: the pair [directory, functions]. *)
Definition load_library (fs : filesystem) (destination : string) : result pyval :=
  match fs_read destination fs with
  | None => Raise FileNotFoundError
  | Some text => load_lines (readlines text)
  end.

(** ** [CreateView.py]: the capture loop

    The handlers of the window act on the attributes [box] and
    [capture_screen] and on the spin box of the frequency; what they do
    to the outside (standard output, the screen, the disk) is recorded as
    a trace of events.  [datetime.now()] reads a clock, given as the
    sequence of the times that its successive calls return. *)
Module CreateView.

Record datetime : Type := mkDatetime {
  month : nat; day : nat; hour : nat; minute : nat; second : nat
}.

Definition pad2 (n : nat) : string :=
  let d := NilEmpty.string_of_uint (Nat.to_uint n) in
  if (n <? 10)%nat then "0" ++ d else d.

(** [strftime('%m%d_%H:%M:%S')] when [sep] is [":"], and
    [strftime('%m%d_%H_%M_%S')] when it is ["_"]. *)
Definition strftime (sep : string) (t : datetime) : string :=
  pad2 (month t) ++ pad2 (day t) ++ "_" ++ pad2 (hour t) ++ sep
  ++ pad2 (minute t) ++ sep ++ pad2 (second t).

Inductive event : Type :=
| Stdout (text : string)
| Makedirs (path : string)
| Grab (region : option pyval)
| Save (path : string)
| Sleep (period : Z).

Record view : Type := mkView {
  box : pyval;
  capture_screen : bool;
  frequency_spin_box : Z
}.

Record world : Type := mkWorld {
  now_calls : nat;
  dirs : list string;
  trace : list event
}.

Definition emit (e : event) (w : world) : world :=
  mkWorld (now_calls w) (dirs w) (trace w ++ [e])%list.

Definition now (clock : nat -> datetime) (w : world) : datetime * world :=
  (clock (now_calls w), mkWorld (S (now_calls w)) (dirs w) (trace w)).

Definition makedirs (path : string) (w : world) : world :=
  mkWorld (now_calls w) (path :: dirs w) (trace w ++ [Makedirs path])%list.

Inductive click : Type := ClickStop | ClickAnalyse.

Definition onclicked_stop (v : view) (w : world) : view * world :=
  (v, emit (Stdout "stop") w).

(** The two check boxes printed by [onclicked_analyse] are parameters of
    the click in the window; their values do not matter here. *)
Definition onclicked_analyse (keyboard mouse : bool) (v : view) (w : world)
  : view * world :=
  let show (b : bool) := if b then "True" else "False" in
  (v, emit (Stdout (show mouse)) (emit (Stdout (show keyboard)) (emit (Stdout "analyse") w))).

Definition dispatch (c : click) (v : view) (w : world) : view * world :=
  match c with
  | ClickStop => onclicked_stop v w
  | ClickAnalyse => onclicked_analyse false false v w
  end.

Fixpoint dispatch_all (cs : list click) (v : view) (w : world) : view * world :=
  match cs with
  | [] => (v, w)
  | c :: r => let (v', w') := dispatch c v w in dispatch_all r v' w'
  end.

Definition is_int (v : pyval) : bool :=
  match v with
  | VInt _ | VBool _ => true
  | _ => false
  end.

Section Loop.

Variable clock : nat -> datetime.

(** The clicks that the window receives while turn [k] of the loop runs.
    The loop runs inside the handler of the start button, so the window
    delivers nothing before the handler returns; handing the clicks to
    their handlers between two turns is the most that a stop button
    could be given. *)
Variable clicks : nat -> list click.

(** [while self.capture_screen: im = ImageGrab.grab(...); im.save(...)];
    [k] counts the turns.  The boolean tells whether the loop was left. *)
Fixpoint capture_loop (fuel : nat) (k : nat) (region : option pyval)
    (time_folder : string) (v : view) (w : world) {struct fuel}
  : view * world * bool :=
  if capture_screen v then
    match fuel with
    | O => (v, w, false)
    | S fuel' =>
        let w1 := emit (Grab region) w in
        let (t, w2) := now clock w1 in
        let w3 := emit (Save ("./" ++ time_folder ++ "/" ++ strftime "_" t ++ ".png")) w2 in
        let (v', w4) := dispatch_all (clicks k) v w3 in
        capture_loop fuel' (S k) region time_folder v' w4
    end
  else (v, w, true).

Definition onclicked_start (fuel : nat) (v : view) (w : world)
  : view * world * bool :=
  let w := emit (Stdout ("start " ++ str_int (frequency_spin_box v))) w in
  let v := mkView (box v) true (frequency_spin_box v) in
  let speed := frequency_spin_box v in
  let (t, w) := now clock w in
  let time_folder := strftime ":" t in
  let directory := "./" ++ time_folder in
  let w := if existsb (String.eqb directory) (dirs w) then w
           else makedirs directory w in
  if is_int (box v) then capture_loop fuel 0 None time_folder v w
  else capture_loop fuel 0 (Some (box v)) time_folder v w.

End Loop.

(** What the handlers of the clicks print. *)
Definition click_event (c : click) : list event :=
  match c with
  | ClickStop => [Stdout "stop"]
  | ClickAnalyse => [Stdout "analyse"; Stdout "False"; Stdout "False"]
  end.

Definition click_events (cs : list click) : list event := flat_map click_event cs.

(** The events of [fuel] turns of the loop from turn [k] on, [n] being
    the number of readings of the clock so far. *)
Fixpoint loop_events (clock : nat -> datetime) (clicks : nat -> list click)
    (region : option pyval) (time_folder : string) (fuel k n : nat)
  : list event :=
  match fuel with
  | O => []
  | S fuel' =>
      (Grab region
       :: Save ("./" ++ time_folder ++ "/" ++ strftime "_" (clock n) ++ ".png")
       :: click_events (clicks k)
       ++ loop_events clock clicks region time_folder fuel' (S k) (S n))%list
  end.

Fixpoint count_grabs (tr : list event) : nat :=
  match tr with
  | [] => 0
  | Grab _ :: r => S (count_grabs r)
  | _ :: r => count_grabs r
  end.

Definition is_sleep (e : event) : bool :=
  match e with
  | Sleep _ => true
  | _ => false
  end.

End CreateView.

(** ** The layout of the artifact

    The lines that [create_library] produces, named so that the
    theorems below can speak of them.  A line is given without its
    newline. *)

(** A line with its newline. *)
Definition ln (l : string) : string := l ++ NL.

Definition class_line (name : string) : string := "class " ++ name ++ "(object):".

Definition class_meta_line (screen_box : option (list Z)) (directory : string)
  : string :=
  "# c {'screen_box': " ++ str_screen_box screen_box ++ ", 'directory': '"
  ++ directory ++ "'}".

Definition grab_line (screen_box : option (list Z)) : string :=
  if truthy screen_box
  then "            img = sct.grab(" ++ str_screen_box screen_box ++ ")"
  else "            img = sct.shot()".

Definition header_lines (name : string) (screen_box : option (list Z))
    (directory : string) : list string :=
  ["import random";
   "import numpy";
   "import cv2";
   "import pyocr";
   "import pyocr.builders";
   "from PIL import Image, ImageFilter";
   "from mss import mss";
   "";
   "";
   class_line name;
   class_meta_line screen_box directory;
   "";
   "    def __init__(self):";
   "        self.img = None";
   "        tools = pyocr.get_available_tools()";
   "        if len(tools) == 0:";
   "            print('No OCR tool found')";
   "            sys.exit(1)";
   "        self.tool = tools[0]";
   "        print(" ++ DQ ++ "Will use tool '%s'" ++ DQ ++ " % (self.tool.get_name()))";
   "";
   "    def grab_screen(self):";
   "        with mss() as sct:";
   grab_line screen_box;
   "        self.img = Image.frombytes('RGB', img.size, img.rgb)";
   "        return self.img";
   ""].

(** The chunks of the header, as the successive calls of [file.write]
    cut it. *)
Definition header_chunks (name : string) (screen_box : option (list Z))
    (directory : string) : list string :=
  let h := header_lines name screen_box directory in
  [lns (firstn 7 h); NL ++ NL; lns (firstn 11 (skipn 9 h)); NL;
   lns (firstn 2 (skipn 21 h)); lns (firstn 1 (skipn 23 h));
   lns (firstn 2 (skipn 24 h)); NL].

Definition def_line (f : BoxFunction) : string := "    def " ++ name f ++ "(self):".

Definition meta_line (f : BoxFunction) : string :=
  "# f BoxFunction('" ++ name f ++ "', '" ++ type f ++ "', "
  ++ str_int_list (box f) ++ ", " ++ str_image (image f) ++ ")".

Definition crop_line (f : BoxFunction) : string :=
  let x := nth 0 (box f) 0%Z in
  let y := nth 1 (box f) 0%Z in
  let w := nth 2 (box f) 0%Z in
  let h := nth 3 (box f) 0%Z in
  "cropped = self.img.crop([" ++ str_int x ++ ", " ++ str_int y ++ ", "
  ++ str_int (x + w) ++ ", " ++ str_int (y + h) ++ "])".

Definition function_lines (f : BoxFunction) : list string :=
  [def_line f; meta_line f; crop_line f].

(** The lines that [write_body] writes for a bound loop variable. *)
Definition body_lines (f : BoxFunction) : list string :=
  if type f =? "string" then ["        return " ++ ocr_call "cropped"]
  else if type f =? "number" then map number_text number_body
  else if type f =? "position" then
    ["        image = cv2.(" ++ DQ ++ str_image (image f) ++ DQ ++ ")";
     "        cropped = numpy.array(cropped)[:, :, ::-1].copy()";
     "        ";
     "        res = cv2.matchTemplate(cropped, image, cv2.TM_CCOEFF_NORMED)";
     "        threshold = 0.8";
     "        loc = np.where( res >= threshold)";
     "        return loc";
     ""]
  else [].

(** All the lines of the artifact of a library with at least one rule:
    the body generated after the loop belongs to the last rule. *)
Definition artifact_lines (name : string) (screen_box : option (list Z))
    (directory : string) (functions : list BoxFunction) (last : BoxFunction)
  : list string :=
  (header_lines name screen_box directory
   ++ flat_map function_lines functions ++ body_lines last ++ [""])%list.

(** The lines of the file that [create_library] wrote. *)
Definition written_lines (fs : filesystem) (destination : string) : list string :=
  match fs_read (destination ++ ".py") fs with
  | Some text => readlines text
  | None => []
  end.

(** The text after the tag of a function-level line, and after the tag
    of the class-level line. *)
Definition function_payload (f : BoxFunction) : string :=
  "BoxFunction('" ++ name f ++ "', '" ++ type f ++ "', "
  ++ str_int_list (box f) ++ ", " ++ str_image (image f) ++ ")" ++ NL.

Definition class_payload (screen_box : option (list Z)) (directory : string)
  : string :=
  "{'screen_box': " ++ str_screen_box screen_box ++ ", 'directory': '"
  ++ directory ++ "'}" ++ NL.

(** [a] is immediately followed by [b] somewhere in [lines]. *)
Fixpoint adjacent (a b : string) (lines : list string) : bool :=
  match lines with
  | x :: ((y :: _) as rest) => ((x =? a) && (y =? b)) || adjacent a b rest
  | _ => false
  end.

Definition has_line (l : string) (lines : list string) : bool :=
  existsb (String.eqb l) lines.


(** ** Conditions on strings, lines and rules *)

(** No line end inside. *)
Definition line_char (c : ascii) : bool := negb ((c =? nl)%char || (c =? cr)%char).
Definition line_safe (s : string) : bool := string_forallb line_char s.

(** Characters that a single-quoted literal holds as they are. *)
Definition plain_char (c : ascii) : bool :=
  negb ((c =? squote)%char || (c =? backslash)%char || (c =? nl)%char
        || (c =? cr)%char || (c =? nul)%char).
Definition plain (s : string) : bool := string_forallb plain_char s.

(** The test of the decoder on a line: long enough and opened by the
    tag; a line that is not tagged is passed over. *)
Definition tagged (tag line : string) : bool :=
  negb (String.length line <? 4)%nat && (take 3 line =? tag).

Definition untagged (line : string) : bool :=
  negb (tagged "# c" line) && negb (tagged "# f" line).


(** A box on which the subscripts [box[0]] ... [box[3]] succeed, and a
    box of exactly four entries. *)
Definition long_box (f : BoxFunction) : bool := (4 <=? List.length (box f))%nat.
Definition four_box (f : BoxFunction) : bool := (List.length (box f) =? 4)%nat.

(** The value names a kind of the closed set. *)
Definition known_kind (v : pyval) : bool :=
  match v with
  | VStr s => match kind_of_string s with Some _ => true | None => false end
  | _ => false
  end.

(** Name and kind may stand between single quotes, and there is no
    template image. *)
Definition quotable (f : BoxFunction) : bool :=
  plain (name f) && plain (type f)
  && match image f with None => true | Some _ => false end.

(** The rules that the codec carries through: name and kind free of
    quotes, backslashes and line ends, no template image, a box of four
    integers and a kind of the closed set. *)
Definition portable (f : BoxFunction) : bool :=
  quotable f && four_box f && known_kind (VStr (type f)).

(** ** The decoder on the remaining lines *)

(** The loop of [load_library] read on the lines that remain: it is
    [load_loop] with the lines before index [i] dropped. *)
Fixpoint scan (fuel : nat) (lines : list string) (directory : pyval)
    (functions : list pyval) {struct fuel} : result (pyval * list pyval) :=
  match lines with
  | [] => Ok (directory, functions)
  | line :: rest =>
      match fuel with
      | O => OutOfFuel
      | S fuel' =>
          if (String.length line <? 4)%nat then scan fuel' rest directory functions
          else if take 3 line =? "# c" then
            (class_data <- literal_eval (drop 4 line) ;;
             directory' <- subscript class_data "directory" ;;
             scan fuel' (skipn 8 rest) directory' functions)%result
          else if take 3 line =? "# f" then
            (f <- eval (drop 4 line) ;;
             scan fuel' (skipn 2 rest) directory (functions ++ [f])%list)%result
          else scan fuel' rest directory functions
      end
  end.

Definition decode (lines : list string) (directory : pyval)
    (functions : list pyval) : result (pyval * list pyval) :=
  scan (List.length lines) lines directory functions.

(** The constructor applied to the fields of a rule without a template
    image, and to the rules of a list in turn, as the decoder meets
    their metadata lines. *)
Definition construct (f : BoxFunction) : result pyval :=
  BoxFunction_new [VStr (name f); VStr (type f); VList (map VInt (box f)); VNone].

Fixpoint construct_all (fs : list BoxFunction) (acc : list pyval)
  : result (list pyval) :=
  match fs with
  | [] => Ok acc
  | f :: r => (v <- construct f ;; construct_all r (acc ++ [v])%list)%result
  end.

(** ** What the emitted text parses to *)

(** The expression that the text of an integer parses to. *)
Definition int_expr (z : Z) : expr :=
  match z with
  | Zneg p => ENeg (EInt (Zpos p))
  | _ => EInt z
  end.

(** A digit or the minus sign. *)
Definition is_int_char (c : ascii) : bool := is_digit c || (c =? "-")%char.

(** The end of a number: not a letter, a digit, an underscore or a dot. *)
Definition number_end (rest : string) : bool :=
  match rest with
  | String c _ => negb (is_ident_char c || (c =? ".")%char)
  | "" => true
  end.

(** The first character after the blanks is not [c]. *)
Definition starts_not (c : ascii) (s : string) : bool :=
  match skip_ws s with
  | String c' _ => negb (c' =? c)%char
  | "" => true
  end.

(** The capture region of the class-level payload: the fuel that its
    text asks of the parser, its expression and its value. *)
Definition screen_box_size (sb : option (list Z)) : nat :=
  match sb with
  | Some l => List.length l
  | None => 0
  end.

Definition screen_box_expr (sb : option (list Z)) : expr :=
  match sb with
  | Some l => EList (map int_expr l)
  | None => ENone
  end.

Definition screen_box_value (sb : option (list Z)) : pyval :=
  match sb with
  | Some l => VList (map VInt l)
  | None => VNone
  end.


(** ** Line ends of another host *)



(** No slash inside. *)
Definition not_slash (c : ascii) : bool := negb (c =? "/")%char.

(** ** [CreateView.py]: the window and its radio buttons

    The constructor and the handlers of the two radio buttons.  Beside
    its attributes the window holds the text of the label
    [screen_mode].  Qt sets the state of a radio button before the
    handler of its signal [toggled] runs: what [isChecked()] returns is a
    parameter of the handler, and so is the rectangle that
    [cv2.selectROI] returns.  The windows that OpenCV opens are left out
    of the events. *)
Module CreateViewWindow.
Import CreateView.

Record window : Type := mkWindow {
  attributes : view;
  screen_mode : string
}.

(** [CreateView.__init__]: [self.box = 0] and
    [self.capture_screen = False]; the spin box and the label come from
    the design file.  The handlers of the radio buttons are connected
    after [fullsc_radb.setChecked(True)], which therefore runs none. *)
Definition init (frequency : Z) (mode : string) : window :=
  mkWindow (mkView (VInt 0) false frequency) mode.

Definition full_screen_radb (checked : bool) (win : window) (w : world)
  : window * world :=
  if checked then
    (mkWindow (mkView (VInt 0) (capture_screen (attributes win))
                 (frequency_spin_box (attributes win)))
       "Current mode: Full screen",
     w)
  else (win, w).

(** [r] is the rectangle selected, or [None] when the selection raises;
    the handler shows it and prints it, and assigns no attribute. *)
Definition box_screen_radb (checked : bool) (r : option (Z * Z * Z * Z))
    (win : window) (w : world) : window * world :=
  if checked then
    let w := emit (Grab None) w in
    let w := emit (Save "./image.png") w in
    match r with
    | None => (win, w)
    | Some (x, y, width, height) =>
        (mkWindow (attributes win) "Current mode: not Full screen",
         emit (Stdout (str_int_list [x; y; width; height])) w)
    end
  else (win, w).

(** The handlers that return: every one but [onclicked_start]. *)
Inductive handler : Type :=
| Stop
| Analyse (keyboard mouse : bool)
| FullScreen (checked : bool)
| BoxScreen (checked : bool) (r : option (Z * Z * Z * Z)).

Definition handle (h : handler) (win : window) (w : world) : window * world :=
  match h with
  | Stop =>
      let (v, w') := onclicked_stop (attributes win) w in
      (mkWindow v (screen_mode win), w')
  | Analyse keyboard mouse =>
      let (v, w') := onclicked_analyse keyboard mouse (attributes win) w in
      (mkWindow v (screen_mode win), w')
  | FullScreen checked => full_screen_radb checked win w
  | BoxScreen checked r => box_screen_radb checked r win w
  end.

Fixpoint handle_all (hs : list handler) (win : window) (w : world)
  : window * world :=
  match hs with
  | [] => (win, w)
  | h :: r => let (win', w') := handle h win w in handle_all r win' w'
  end.

(** The regions of the captures, the paths of the files saved and the
    folders created, in the order of the events. *)
Fixpoint grabbed (tr : list event) : list (option pyval) :=
  match tr with
  | [] => []
  | Grab region :: r => region :: grabbed r
  | _ :: r => grabbed r
  end.

Fixpoint saved (tr : list event) : list string :=
  match tr with
  | [] => []
  | Save path :: r => path :: saved r
  | _ :: r => saved r
  end.

Fixpoint made (tr : list event) : list string :=
  match tr with
  | [] => []
  | Makedirs path :: r => path :: made r
  | _ :: r => made r
  end.

(** The path of the frame captured at the time [t] of a session begun
    at the time [t0]. *)
Definition frame_path (t0 t : datetime) : string :=
  "./" ++ strftime ":" t0 ++ "/" ++ strftime "_" t ++ ".png".

(** The fields of a time that [strftime] prints with two digits. *)
Definition two_digits (t : datetime) : bool :=
  (month t <? 100)%nat && (day t <? 100)%nat && (hour t <? 100)%nat
  && (minute t <? 100)%nat && (second t <? 100)%nat.

End CreateViewWindow.

(** ** Examples *)

(** The rule of the example scenario of the design document, a rule
    named ["price"], a rule with a kind that does not exist and a rule
    with a template image. *)
Definition score : BoxFunction :=
  mkBoxFunction "score" "number" [10; 10; 100; 40]%Z None.

Definition price : BoxFunction :=
  mkBoxFunction "price" "string" [0; 0; 50; 20]%Z None.


Definition logo : BoxFunction :=
  mkBoxFunction "logo" "position" [0; 0; 5; 5]%Z (Some "t.png").


(** * Properties *)

(** ** Strings *)

Lemma append_assoc_s (a b c : string) : (a ++ b) ++ c = a ++ (b ++ c).
Proof. induction a; simpl; congruence. Qed.

Lemma append_empty_r (a : string) : a ++ "" = a.
Proof. induction a; simpl; congruence. Qed.

Lemma length_append_s (a b : string) :
  String.length (a ++ b) = (String.length a + String.length b)%nat.
Proof. induction a; simpl; congruence. Qed.

Lemma forallb_append (p : ascii -> bool) (a b : string) :
  string_forallb p (a ++ b) = string_forallb p a && string_forallb p b.
Proof.
  induction a as [|c a IH]; [reflexivity|].
  simpl. now rewrite IH, andb_assoc.
Qed.

Lemma last_cons {A} (l : list A) : forall x d, List.last (x :: l) d = List.last l x.
Proof.
  induction l as [|a l IH]; intros x d; [reflexivity|].
  change (List.last (x :: a :: l) d) with (List.last (a :: l) d).
  now rewrite !IH.
Qed.

Arguments str_int : simpl never.
Arguments str_int_list : simpl never.
Arguments str_screen_box : simpl never.
Arguments str_image : simpl never.

Ltac flatten_strings := repeat (rewrite !append_assoc_s; simpl).

(** ** The encoder writes the layout *)

Lemma format_class name sb dir :
  format class_template [name; str_screen_box sb; dir]
  = Ok (lns (firstn 11 (skipn 9 (header_lines name sb dir)))).
Proof.
  unfold header_lines, class_line, class_meta_line; simpl.
  flatten_strings; reflexivity.
Qed.

Lemma item_nth (l : list Z) (i : nat) :
  (i < List.length l)%nat -> item l i = Ok (nth i l 0%Z).
Proof.
  intros H. unfold item.
  destruct (nth_error l i) eqn:E.
  - f_equal. symmetry. now apply nth_error_nth.
  - apply nth_error_None in E. lia.
Qed.

Lemma write_function_ok f file :
  long_box f = true ->
  write_function f file = ((file ++ [lns (function_lines f)])%list, Ok tt).
Proof.
  unfold long_box. rewrite Nat.leb_le. intros H.
  unfold write_function, wbind, lift.
  rewrite !item_nth by lia.
  unfold function_lines, def_line, meta_line, crop_line; simpl.
  unfold write. flatten_strings. reflexivity.
Qed.

Lemma for_functions_ok fs : forall v file,
  forallb long_box fs = true ->
  for_functions fs v file
  = ((file ++ map (fun f => lns (function_lines f)) fs)%list,
     Ok (List.last (map Some fs) v)).
Proof.
  induction fs as [|f fs IH]; intros v file H.
  - cbn [for_functions map List.last]. unfold wret. now rewrite List.app_nil_r.
  - cbn [forallb] in H. apply andb_prop in H. destruct H as [Hf Hfs].
    cbn [for_functions]. unfold wbind. rewrite write_function_ok by assumption.
    rewrite IH by assumption. rewrite <- List.app_assoc.
    cbn [map app]. now rewrite last_cons.
Qed.

Lemma write_all_ok chunks : forall file,
  write_all chunks file = ((file ++ chunks)%list, Ok tt).
Proof.
  induction chunks as [|c r IH]; intros file; simpl.
  - unfold wret. now rewrite List.app_nil_r.
  - unfold wbind, write. rewrite IH, <- List.app_assoc. reflexivity.
Qed.

Lemma write_body_ok f file :
  write_body (Some f) file = ((file ++ map ln (body_lines f))%list, Ok tt).
Proof.
  unfold write_body, body_lines.
  destruct (type f =? "string").
  - reflexivity.
  - destruct (type f =? "number").
    + rewrite write_all_ok. reflexivity.
    + destruct (type f =? "position").
      * unfold wbind, lift, write, ln; simpl.
        rewrite <- !List.app_assoc. simpl. flatten_strings. reflexivity.
      * unfold wret. now rewrite List.app_nil_r.
Qed.

Lemma write_library_split destination sb dir fs :
  write_library destination sb dir fs []
  = let file := header_chunks (basename (normpath destination)) sb dir in
    match for_functions fs None file with
    | (file', Ok function) =>
        match write_body function file' with
        | (file'', Ok _) => ((file'' ++ [NL; ""; ""; ""; ""])%list, Ok tt)
        | (file'', Raise e) => (file'', Raise e)
        | (file'', Unmodelled) => (file'', Unmodelled)
        | (file'', OutOfFuel) => (file'', OutOfFuel)
        end
    | (file', Raise e) => (file', Raise e)
    | (file', Unmodelled) => (file', Unmodelled)
    | (file', OutOfFuel) => (file', OutOfFuel)
    end.
Proof.
  unfold write_library.
  unfold wbind at 1 2 3. unfold write at 1 2. unfold lift at 1.
  rewrite format_class.
  unfold wbind at 1 2 3 4. unfold write at 1 2 3.
  assert (G : (if truthy sb
               then wbind (lift (format (lns ["            img = sct.grab({})"])
                                   [str_screen_box sb])) (fun s => write s)
               else write (lns ["            img = sct.shot()"]))
              = write (lns [grab_line sb])).
  { unfold grab_line. destruct (truthy sb); [|reflexivity].
    unfold wbind, lift, write. simpl. flatten_strings. reflexivity. }
  rewrite G. clear G.
  unfold wbind at 1 2 3 4. unfold write at 1 2 3.
  cbn [app].
  unfold header_chunks. cbv zeta.
  change (lns (firstn 7 (header_lines (basename (normpath destination)) sb dir)))
    with imports.
  cbn [firstn skipn header_lines].
  destruct (for_functions fs None _) as [file' [function| | |]]; try reflexivity.
  destruct (write_body function file') as [file'' [[]| | |]]; try reflexivity.
  unfold wbind, write. rewrite <- !List.app_assoc. reflexivity.
Qed.

Lemma lns_app (a b : list string) : lns (a ++ b)%list = lns a ++ lns b.
Proof.
  induction a as [|x a IH]; [reflexivity|].
  cbn [lns app]. now rewrite IH, !append_assoc_s.
Qed.

Lemma concat_empty_cons (x : string) (l : list string) :
  String.concat "" (x :: l) = x ++ String.concat "" l.
Proof.
  destruct l; cbn [String.concat]; [now rewrite append_empty_r | reflexivity].
Qed.

Lemma concat_empty_app (a b : list string) :
  String.concat "" (a ++ b)%list = String.concat "" a ++ String.concat "" b.
Proof.
  induction a as [|x a IH]; [reflexivity|].
  cbn [app]. now rewrite !concat_empty_cons, IH, append_assoc_s.
Qed.

Lemma concat_lns_map {A} (g : A -> list string) (l : list A) :
  String.concat "" (map (fun x => lns (g x)) l) = lns (flat_map g l).
Proof.
  induction l as [|x l IH]; [reflexivity|].
  cbn [map flat_map]. now rewrite concat_empty_cons, lns_app, IH.
Qed.

Lemma concat_map_ln (l : list string) : String.concat "" (map ln l) = lns l.
Proof.
  induction l as [|x l IH]; [reflexivity|].
  cbn [map lns]. rewrite concat_empty_cons, IH. unfold ln.
  now rewrite append_assoc_s.
Qed.

Lemma concat_header name sb dir :
  String.concat "" (header_chunks name sb dir) = lns (header_lines name sb dir).
Proof.
  unfold header_chunks, header_lines. cbv zeta.
  cbn [firstn skipn]. rewrite !concat_empty_cons.
  cbn [String.concat lns]. flatten_strings. reflexivity.
Qed.

(** The text that [create_library] leaves in the file, for a library
    with at least one rule and boxes of four entries or more. *)
Lemma create_library_text fs destination sb dir functions last :
  forallb long_box (functions ++ [last]) = true ->
  create_library fs destination sb dir (functions ++ [last])
  = (fs_write (destination ++ ".py")
       (lns (artifact_lines (basename (normpath destination)) sb dir
               (functions ++ [last]) last)) fs,
     Ok tt).
Proof.
  intros H. unfold create_library.
  rewrite write_library_split. cbv zeta.
  rewrite for_functions_ok by assumption.
  replace (List.last (map Some (functions ++ [last])) None) with (Some last)
    by (rewrite map_app; cbn [map]; now rewrite last_last).
  rewrite write_body_ok.
  f_equal. f_equal.
  rewrite !concat_empty_app, concat_header, concat_lns_map, concat_map_ln.
  unfold artifact_lines. rewrite !lns_app.
  change (String.concat "" [NL; ""; ""; ""; ""]) with (lns [""]).
  now rewrite !append_assoc_s.
Qed.

(** With no rule, the loop variable is unbound when the body is
    reached; the header alone has been written. *)
Lemma create_library_empty fs destination sb dir :
  create_library fs destination sb dir []
  = (fs_write (destination ++ ".py")
       (lns (header_lines (basename (normpath destination)) sb dir)) fs,
     Raise UnboundLocalError).
Proof.
  unfold create_library. rewrite write_library_split. cbv zeta.
  cbn [for_functions]. unfold wret, write_body, lift.
  now rewrite concat_header.
Qed.


(** ** The text of integers *)

Lemma string_forallb_impl (p q : ascii -> bool) (s : string) :
  (forall c, p c = true -> q c = true) ->
  string_forallb p s = true -> string_forallb q s = true.
Proof.
  intros Hpq. induction s as [|c s IH]; [reflexivity|].
  simpl. rewrite !andb_true_iff. intros [H1 H2]. auto.
Qed.

Lemma digits_of_uint (u : Decimal.uint) :
  string_forallb is_digit (NilEmpty.string_of_uint u) = true.
Proof. induction u; simpl; auto. Qed.

Lemma int_chars (z : Z) : string_forallb is_int_char (str_int z) = true.
Proof.
  unfold str_int, Z.to_int.
  assert (D : forall u, string_forallb is_int_char (NilEmpty.string_of_uint u) = true).
  { intros u. apply string_forallb_impl with (p := is_digit); [|apply digits_of_uint].
    intros c H. unfold is_int_char. now rewrite H. }
  destruct z; simpl; auto.
Qed.

Lemma int_char_line (c : ascii) : is_int_char c = true -> line_char c = true.
Proof.
  destruct c as [[] [] [] [] [] [] [] []]; vm_compute; congruence.
Qed.

Lemma line_safe_int (z : Z) : line_safe (str_int z) = true.
Proof.
  apply string_forallb_impl with (p := is_int_char); [apply int_char_line|apply int_chars].
Qed.

Lemma line_safe_app (a b : string) :
  line_safe (a ++ b) = line_safe a && line_safe b.
Proof. apply forallb_append. Qed.

Lemma line_safe_join_ints (l : list Z) :
  line_safe (join ", " (map str_int l)) = true.
Proof.
  induction l as [|z l IH]; [reflexivity|].
  cbn [map join]. destruct (map str_int l) eqn:E.
  - apply line_safe_int.
  - rewrite !line_safe_app, line_safe_int, IH. reflexivity.
Qed.

Lemma line_safe_int_list (l : list Z) : line_safe (str_int_list l) = true.
Proof.
  unfold str_int_list. now rewrite !line_safe_app, line_safe_join_ints.
Qed.

Lemma line_safe_screen_box sb : line_safe (str_screen_box sb) = true.
Proof. destruct sb; [apply line_safe_int_list|reflexivity]. Qed.

Lemma plain_line (s : string) : plain s = true -> line_safe s = true.
Proof.
  apply string_forallb_impl. intros c.
  unfold plain_char, line_char. rewrite !negb_true_iff, !orb_false_iff.
  tauto.
Qed.

(** ** The lines of the artifact hold no line end *)

Ltac safe_line :=
  unfold line_safe in *;
  repeat rewrite forallb_append;
  repeat match goal with
         | H : string_forallb line_char _ = true |- _ => rewrite H
         end;
  reflexivity.

Lemma header_lines_safe name sb dir :
  line_safe name = true -> line_safe dir = true ->
  forallb line_safe (header_lines name sb dir) = true.
Proof.
  intros Hn Hd. pose proof (line_safe_screen_box sb) as Hs.
  unfold header_lines, class_line, class_meta_line, grab_line.
  cbn [forallb]. repeat (apply andb_true_intro; split); try reflexivity;
    try safe_line.
  destruct (truthy sb); safe_line.
Qed.

Lemma function_lines_safe f :
  line_safe (name f) = true -> line_safe (type f) = true ->
  line_safe (str_image (image f)) = true ->
  forallb line_safe (function_lines f) = true.
Proof.
  intros Hn Ht Hi. pose proof (line_safe_int_list (box f)) as Hb.
  unfold function_lines, def_line, meta_line, crop_line.
  cbn [forallb]. repeat (apply andb_true_intro; split); try reflexivity;
    try safe_line.
  cbv zeta. rewrite !line_safe_app, !line_safe_int. reflexivity.
Qed.

Lemma body_lines_safe f :
  line_safe (str_image (image f)) = true ->
  forallb line_safe (body_lines f) = true.
Proof.
  intros Hi. unfold body_lines.
  destruct (type f =? "string"); [reflexivity|].
  destruct (type f =? "number"); [reflexivity|].
  destruct (type f =? "position"); [|reflexivity].
  cbn [forallb]. repeat (apply andb_true_intro; split); try reflexivity.
  safe_line.
Qed.

(** ** Reading the lines back *)

Lemma readlines_ln (l rest : string) :
  line_safe l = true -> readlines (l ++ NL ++ rest) = ln l :: readlines rest.
Proof.
  induction l as [|c l IH]; intros H.
  - reflexivity.
  - simpl in H. apply andb_prop in H. destruct H as [Hc Hl].
    unfold line_char in Hc. rewrite negb_true_iff, orb_false_iff in Hc.
    destruct Hc as [Hnl Hcr].
    cbn [append readlines]. rewrite Hnl, Hcr, (IH Hl). reflexivity.
Qed.

Lemma readlines_lns (ls : list string) :
  forallb line_safe ls = true -> readlines (lns ls) = map ln ls.
Proof.
  induction ls as [|l ls IH]; intros H; [reflexivity|].
  cbn [forallb] in H. apply andb_prop in H. destruct H as [Hl Hls].
  cbn [lns map]. now rewrite readlines_ln, IH.
Qed.

(** ** The decoder on the remaining lines *)

Lemma skipn_nth_cons (lines : list string) (i : nat) :
  (i < List.length lines)%nat ->
  skipn i lines = nth i lines "" :: skipn (S i) lines.
Proof.
  revert i. induction lines as [|l lines IH]; intros i H; simpl in H; [lia|].
  destruct i as [|i]; [reflexivity|].
  cbn [skipn nth]. apply IH. lia.
Qed.

Lemma load_loop_scan fuel lines : forall i d fs,
  load_loop fuel lines i d fs = scan fuel (skipn i lines) d fs.
Proof.
  induction fuel as [|fuel IH]; intros i d fs.
  - cbn [load_loop]. destruct (i <? List.length lines)%nat eqn:E.
    + apply Nat.ltb_lt in E. now rewrite skipn_nth_cons.
    + apply Nat.ltb_ge in E. now rewrite skipn_all2.
  - cbn [load_loop]. destruct (i <? List.length lines)%nat eqn:E.
    + apply Nat.ltb_lt in E. rewrite skipn_nth_cons by assumption.
      cbn [scan]. cbv zeta.
      assert (K : forall k d' fs', load_loop fuel lines (i + k + 1) d' fs'
                                   = scan fuel (skipn k (skipn (S i) lines)) d' fs').
      { intros k d' fs'. rewrite IH, skipn_skipn. do 2 f_equal. lia. }
      pose proof (K 0%nat) as K0. rewrite Nat.add_0_r in K0. cbn [skipn] in K0.
      destruct (String.length (nth i lines "") <? 4)%nat; [apply K0|].
      destruct (take 3 (nth i lines "") =? "# c").
      { destruct (literal_eval _); try reflexivity. cbn [rbind].
        destruct (subscript _ _); try reflexivity. cbn [rbind]. apply K. }
      destruct (take 3 (nth i lines "") =? "# f"); [|apply K0].
      destruct (eval _); try reflexivity. cbn [rbind]. apply K.
    + apply Nat.ltb_ge in E. now rewrite skipn_all2.
Qed.

Lemma length_skipn_le {A} (n : nat) (l : list A) :
  (List.length (skipn n l) <= List.length l)%nat.
Proof. rewrite length_skipn. lia. Qed.

Lemma scan_fuel f1 : forall f2 lines d fs,
  (List.length lines <= f1)%nat -> (List.length lines <= f2)%nat ->
  scan f1 lines d fs = scan f2 lines d fs.
Proof.
  induction f1 as [|f1 IH]; intros f2 lines d fs H1 H2.
  - destruct lines; [now destruct f2|simpl in H1; lia].
  - destruct lines as [|line rest]; [now destruct f2|].
    destruct f2 as [|f2]; [simpl in H2; lia|].
    simpl in H1, H2. cbn [scan].
    pose proof (length_skipn_le 8 rest). pose proof (length_skipn_le 2 rest).
    rewrite (IH f2 rest) by lia.
    destruct (String.length line <? 4)%nat; [reflexivity|].
    destruct (take 3 line =? "# c").
    { destruct (literal_eval _); try reflexivity. cbn [rbind].
      destruct (subscript _ _); try reflexivity. cbn [rbind]. apply IH; lia. }
    destruct (take 3 line =? "# f"); [|reflexivity].
    destruct (eval _); try reflexivity. cbn [rbind]. apply IH; lia.
Qed.

Lemma decode_nil d fs : decode [] d fs = Ok (d, fs).
Proof. reflexivity. Qed.

Lemma decode_cons line rest d fs :
  decode (line :: rest) d fs =
  if (String.length line <? 4)%nat then decode rest d fs
  else if take 3 line =? "# c" then
    (class_data <- literal_eval (drop 4 line) ;;
     directory' <- subscript class_data "directory" ;;
     decode (skipn 8 rest) directory' fs)%result
  else if take 3 line =? "# f" then
    (f <- eval (drop 4 line) ;;
     decode (skipn 2 rest) d (fs ++ [f])%list)%result
  else decode rest d fs.
Proof.
  unfold decode. cbn [List.length scan].
  pose proof (length_skipn_le 8 rest). pose proof (length_skipn_le 2 rest).
  destruct (String.length line <? 4)%nat; [reflexivity|].
  destruct (take 3 line =? "# c").
  { destruct (literal_eval _); try reflexivity. cbn [rbind].
    destruct (subscript _ _); try reflexivity. cbn [rbind]. apply scan_fuel; lia. }
  destruct (take 3 line =? "# f"); [|reflexivity].
  destruct (eval _); try reflexivity. cbn [rbind]. apply scan_fuel; lia.
Qed.

Lemma decode_untagged line rest d fs :
  untagged line = true -> decode (line :: rest) d fs = decode rest d fs.
Proof.
  unfold untagged, tagged. intros H. rewrite decode_cons.
  destruct (String.length line <? 4)%nat; [reflexivity|].
  cbn [negb andb] in H.
  destruct (take 3 line =? "# c"); [discriminate|].
  destruct (take 3 line =? "# f"); [discriminate|reflexivity].
Qed.

Lemma decode_all_untagged lines d fs :
  forallb untagged lines = true -> decode lines d fs = Ok (d, fs).
Proof.
  induction lines as [|l lines IH]; intros H; [reflexivity|].
  cbn [forallb] in H. apply andb_prop in H. destruct H as [Hl Hls].
  rewrite decode_untagged by assumption. auto.
Qed.

Lemma load_lines_decode lines :
  load_lines lines =
  ('(directory, functions) <- decode (skipn 3 lines) VNone [] ;;
   Ok (VTuple [directory; VList functions]))%result.
Proof.
  unfold load_lines, decode. rewrite load_loop_scan.
  rewrite (scan_fuel _ (List.length (skipn 3 lines))); auto using length_skipn_le.
Qed.


(** ** The parser *)

(** More fuel does not change a result. *)
Ltac mono_step IHe IHi IHp f' :=
  match goal with
  | H : rbind (parse_expr ?f ?s) _ = Ok _ |- _ =>
      let E := fresh "E" in
      destruct (parse_expr f s) as [[? ?]| | |] eqn:E; try discriminate;
      rewrite (IHe _ _ f' E) by lia; cbn [rbind] in *
  | H : rbind (parse_items ?f ?c ?s) _ = Ok _ |- _ =>
      let E := fresh "E" in
      destruct (parse_items f c s) as [[[? ?] ?]| | |] eqn:E; try discriminate;
      rewrite (IHi _ _ _ f' E) by lia; cbn [rbind] in *
  | H : rbind (parse_pairs ?f ?s) _ = Ok _ |- _ =>
      let E := fresh "E" in
      destruct (parse_pairs f s) as [[? ?]| | |] eqn:E; try discriminate;
      rewrite (IHp _ _ f' E) by lia; cbn [rbind] in *
  | H : (if ?b then _ else _) = Ok _ |- _ => destruct b
  | H : match ?x with "" => _ | String _ _ => _ end = Ok _ |- _ => destruct x
  | H : (let (_, _) := ?p in _) = Ok _ |- _ => destruct p
  | H : rbind (read_number ?s) _ = Ok _ |- _ => exact H
  | H : rbind (read_quoted ?q ?s) _ = Ok _ |- _ => exact H
  | H : Ok _ = Ok _ |- _ => exact H
  | H : match ?x with [] => _ | _ :: _ => _ end = Ok _ |- _ => destruct x
  | H : _ = Ok _ |- _ => discriminate H
  end.

Lemma parse_mono f :
  (forall s r f', parse_expr f s = Ok r -> (f <= f')%nat -> parse_expr f' s = Ok r)
  /\ (forall c s r f', parse_items f c s = Ok r -> (f <= f')%nat ->
                       parse_items f' c s = Ok r)
  /\ (forall s r f', parse_pairs f s = Ok r -> (f <= f')%nat ->
                     parse_pairs f' s = Ok r).
Proof.
  induction f as [|f (IHe & IHi & IHp)].
  - repeat split; intros; discriminate.
  - repeat split.
    + intros s r f' H Hle. destruct f' as [|f']; [lia|].
      cbn [parse_expr] in *.
      destruct (skip_ws s) as [|c t]; [discriminate|].
      repeat mono_step IHe IHi IHp f'.
    + intros c s r f' H Hle. destruct f' as [|f']; [lia|].
      cbn [parse_items] in *.
      destruct (skip_ws s) as [|c0 t]; [discriminate|].
      repeat mono_step IHe IHi IHp f'.
    + intros s r f' H Hle. destruct f' as [|f']; [lia|].
      cbn [parse_pairs] in *.
      destruct (skip_ws s) as [|c0 t]; [discriminate|].
      repeat mono_step IHe IHi IHp f'.
Qed.

Lemma parse_expr_mono f f' s r :
  parse_expr f s = Ok r -> (f <= f')%nat -> parse_expr f' s = Ok r.
Proof. apply parse_mono. Qed.

(** *** String literals *)

Lemma read_quoted_plain (body rest : string) :
  plain body = true ->
  read_quoted squote (body ++ String squote rest) = Ok (body, rest).
Proof.
  induction body as [|c body IH]; intros H.
  - reflexivity.
  - simpl in H. apply andb_prop in H. destruct H as [Hc Hb].
    unfold plain_char in Hc. rewrite negb_true_iff, !orb_false_iff in Hc.
    destruct Hc as [[[[H1 H2] H3] H4] H5].
    cbn [append read_quoted]. rewrite H1, H2, H3, H4, H5, (IH Hb). reflexivity.
Qed.

(** *** Integers *)

Lemma span_digits (ds rest : string) :
  string_forallb is_digit ds = true ->
  match rest with String c _ => is_digit c = false | "" => True end ->
  span is_digit (ds ++ rest) = (ds, rest).
Proof.
  intros H Hr. induction ds as [|c ds IH].
  - destruct rest as [|c r]; [reflexivity|]. cbn [append span]. now rewrite Hr.
  - simpl in H. apply andb_prop in H. destruct H as [Hc Hd].
    cbn [append span]. now rewrite Hc, (IH Hd).
Qed.

Lemma number_end_not_digit (rest : string) :
  number_end rest = true ->
  match rest with String c _ => is_digit c = false | "" => True end.
Proof.
  destruct rest as [|c r]; [trivial|]. unfold number_end, is_ident_char.
  rewrite negb_true_iff, !orb_false_iff. tauto.
Qed.

Lemma to_uint_normal (p : positive) :
  Decimal.unorm (Pos.to_uint p) = Pos.to_uint p.
Proof.
  rewrite <- (DecimalPos.Unsigned.to_of (Pos.to_uint p)).
  now rewrite DecimalPos.Unsigned.of_to.
Qed.

Lemma to_uint_head (p : positive) :
  exists c r, NilEmpty.string_of_uint (Pos.to_uint p) = String c r
              /\ is_digit c = true /\ (c =? "0")%char = false.
Proof.
  pose proof (to_uint_normal p) as N.
  pose proof (DecimalPos.Unsigned.to_uint_nonzero p) as NZ.
  pose proof (DecimalPos.Unsigned.to_uint_nonnil p) as NN.
  destruct (Pos.to_uint p) as [|u|u|u|u|u|u|u|u|u|u];
    try (eexists; eexists; repeat split; reflexivity).
  - congruence.
  - exfalso. rewrite unorm_D0 in N.
    destruct (Decimal.nzhead u) eqn:E.
    1: { apply unorm_0 in E. rewrite E in N. apply NZ. congruence. }
    all: rewrite unorm_nzhead in N by (rewrite E; discriminate);
      exact (nzhead_nonzero _ _ N).
Qed.

Lemma of_to_uint (p : positive) : Z.of_uint (Pos.to_uint p) = Zpos p.
Proof.
  unfold Z.of_uint. now rewrite DecimalPos.Unsigned.of_to.
Qed.

Lemma read_number_pos (p : positive) (rest : string) :
  number_end rest = true ->
  read_number (NilEmpty.string_of_uint (Pos.to_uint p) ++ rest) = Ok (Zpos p, rest).
Proof.
  intros He. unfold read_number.
  rewrite span_digits; [| apply digits_of_uint | now apply number_end_not_digit].
  destruct (to_uint_head p) as (c & r & E & Hd & H0).
  rewrite E at 1.
  replace (match rest with
           | "" => true
           | String c0 _ => negb (is_ident_char c0 || (c0 =? ".")%char)
           end) with true by (symmetry; exact He).
  replace (match r with "" => true | String _ _ => negb (c =? "0")%char end)
    with true by (destruct r; [reflexivity|now rewrite H0]).
  cbn [andb]. rewrite NilEmpty.usu, of_to_uint. reflexivity.
Qed.

Lemma read_number_zero (rest : string) :
  number_end rest = true -> read_number ("0" ++ rest) = Ok (0%Z, rest).
Proof.
  intros He. unfold read_number.
  change "0" with (NilEmpty.string_of_uint (Decimal.D0 Decimal.Nil)).
  rewrite span_digits; [| apply digits_of_uint | now apply number_end_not_digit].
  cbn [NilEmpty.string_of_uint].
  replace (match rest with
           | "" => true
           | String c0 _ => negb (is_ident_char c0 || (c0 =? ".")%char)
           end) with true by (symmetry; exact He).
  reflexivity.
Qed.

Lemma digit_not_space (c : ascii) :
  is_digit c = true ->
  (c =? " ")%char = false /\ (c =? tab)%char = false /\ (c =? "-")%char = false.
Proof.
  destruct c as [[] [] [] [] [] [] [] []]; vm_compute; intuition congruence.
Qed.

Lemma parse_expr_digit f c t :
  is_digit c = true ->
  parse_expr (S f) (String c t)
  = ('(z, r') <- read_number (String c t) ;; Ok (EInt z, skip_ws r'))%result.
Proof.
  intros H. destruct (digit_not_space c H) as (H1 & H2 & H3).
  cbn [parse_expr skip_ws]. rewrite H1, H2. cbn [orb]. now rewrite H3, H.
Qed.

Lemma parse_int f (z : Z) (rest : string) :
  number_end rest = true ->
  parse_expr (S (S f)) (str_int z ++ rest) = Ok (int_expr z, skip_ws rest).
Proof.
  intros He. unfold str_int, Z.to_int. destruct z as [|p|p].
  - cbn [NilEmpty.string_of_int NilEmpty.string_of_uint append].
    rewrite parse_expr_digit by reflexivity.
    change (String "0" rest) with ("0" ++ rest).
    now rewrite read_number_zero.
  - cbn [NilEmpty.string_of_int].
    destruct (to_uint_head p) as (c & r & E & Hd & H0).
    pose proof (read_number_pos p rest He) as R.
    rewrite E in *. cbn [append] in *.
    rewrite parse_expr_digit by assumption. now rewrite R.
  - cbn [NilEmpty.string_of_int append].
    change (parse_expr (S (S f)) (String "-" (NilEmpty.string_of_uint (Pos.to_uint p) ++ rest)))
      with (rbind (parse_expr (S f) (NilEmpty.string_of_uint (Pos.to_uint p) ++ rest))
              (fun '(e, r') => Ok (ENeg e, r'))).
    destruct (to_uint_head p) as (c & r & E & Hd & H0).
    pose proof (read_number_pos p rest He) as R.
    rewrite E in *. cbn [append] in *.
    rewrite parse_expr_digit by assumption. now rewrite R.
Qed.

Lemma str_int_head (z : Z) :
  exists c r, str_int z = String c r /\ is_int_char c = true.
Proof.
  unfold str_int, Z.to_int. destruct z as [|p|p].
  - now exists "0"%char, "".
  - destruct (to_uint_head p) as (c & r & E & Hd & H0).
    exists c, r. split; [exact E|]. unfold is_int_char. now rewrite Hd.
  - eexists; eexists; split; reflexivity.
Qed.

Lemma int_char_facts (c : ascii) :
  is_int_char c = true ->
  (c =? " ")%char = false /\ (c =? tab)%char = false /\ (c =? "]")%char = false.
Proof.
  destruct c as [[] [] [] [] [] [] [] []]; vm_compute; intuition congruence.
Qed.

Lemma literal_int_expr (z : Z) : literal (int_expr z) = Ok (VInt z).
Proof. destruct z; reflexivity. Qed.

Lemma eval_int_expr (z : Z) : eval_expr (int_expr z) = Ok (VInt z).
Proof. destruct z; reflexivity. Qed.


(** *** Lists of integers *)

Lemma skip_ws_int (z : Z) (rest : string) :
  skip_ws (str_int z ++ rest) = str_int z ++ rest.
Proof.
  destruct (str_int_head z) as (c & r & E & Hc).
  destruct (int_char_facts c Hc) as (H1 & H2 & _).
  rewrite E. cbn [append skip_ws]. now rewrite H1, H2.
Qed.

Lemma parse_items_int (f : nat) (z : Z) (rest : string) :
  number_end rest = true ->
  parse_items (S (S (S f))) "]" (str_int z ++ rest)
  = match skip_ws rest with
    | "" => Raise SyntaxError
    | String c1 r2 =>
        if (c1 =? ",")%char then
          ('(es, _, r3) <- parse_items (S (S f)) "]" r2 ;;
           Ok (int_expr z :: es, true, r3))%result
        else if (c1 =? "]")%char then Ok ([int_expr z], false, r2)
        else Unmodelled
    end.
Proof.
  intros He. cbn [parse_items]. rewrite skip_ws_int.
  pose proof (parse_int f z rest He) as P.
  destruct (str_int_head z) as (c & r & E & Hc).
  destruct (int_char_facts c Hc) as (_ & _ & H3).
  rewrite E in *. cbn [append] in *. rewrite H3, P. reflexivity.
Qed.

Lemma parse_items_space f close s :
  parse_items f close (String " " s) = parse_items f close s.
Proof. destruct f; reflexivity. Qed.

Lemma parse_pairs_space f s : parse_pairs f (String " " s) = parse_pairs f s.
Proof. destruct f; reflexivity. Qed.

Lemma parse_expr_space f s : parse_expr f (String " " s) = parse_expr f s.
Proof. destruct f; reflexivity. Qed.


Lemma parse_items_ints (l : list Z) : forall f rest,
  l <> [] ->
  exists b,
    parse_items (S (S (S (List.length l + f)))) "]"
      (join ", " (map str_int l) ++ "]" ++ rest)
    = Ok (map int_expr l, b, rest).
Proof.
  induction l as [|z l IH]; intros f rest Hl; [contradiction|].
  destruct l as [|z' l'].
  - exists false. cbn [map join List.length].
    rewrite parse_items_int by reflexivity. reflexivity.
  - destruct (IH f rest ltac:(discriminate)) as [b Hb].
    exists true.
    change (join ", " (map str_int (z :: z' :: l')))
      with (str_int z ++ ", " ++ join ", " (map str_int (z' :: l'))).
    change (map int_expr (z :: z' :: l'))
      with (int_expr z :: map int_expr (z' :: l')).
    set (J := join ", " (map str_int (z' :: l'))) in *.
    set (E := map int_expr (z' :: l')) in *.
    rewrite !append_assoc_s.
    rewrite parse_items_int by reflexivity.
    cbn [append skip_ws]. simpl (_ =? _)%char. cbn [orb].
    cbn [append skip_ws]. simpl (_ =? _)%char. cbn match. rewrite parse_items_space.
    cbn [List.length Nat.add append] in *. rewrite Hb. reflexivity.
Qed.

(** [str(l)] parses back to the list display of the integers. *)
Lemma parse_int_list (l : list Z) (f : nat) (rest : string) :
  parse_expr (S (S (S (S (List.length l + f))))) (str_int_list l ++ rest)
  = Ok (EList (map int_expr l), skip_ws rest).
Proof.
  unfold str_int_list. destruct l as [|z l].
  - reflexivity.
  - destruct (parse_items_ints (z :: l) f rest ltac:(discriminate)) as [b Hb].
    set (J := join ", " (map str_int (z :: l))) in *.
    rewrite !append_assoc_s.
    change (parse_expr (S (S (S (S (List.length (z :: l) + f))))) ("[" ++ J ++ "]" ++ rest))
      with (rbind (parse_items (S (S (S (List.length (z :: l) + f)))) "]" (J ++ "]" ++ rest))
              (fun '(es, _, r') => Ok (EList es, skip_ws r'))).
    rewrite Hb. reflexivity.
Qed.


(** *** Steps of the parser *)

Lemma skip_ws_idem (s : string) : skip_ws (skip_ws s) = skip_ws s.
Proof.
  induction s as [|c s IH]; [reflexivity|].
  cbn [skip_ws]. destruct ((c =? " ")%char || (c =? tab)%char) eqn:E; [exact IH|].
  cbn [skip_ws]. now rewrite E.
Qed.

Lemma parse_expr_skip f s : parse_expr f (skip_ws s) = parse_expr f s.
Proof. destruct f; [reflexivity|]. cbn [parse_expr]. now rewrite skip_ws_idem. Qed.

Lemma parse_expr_nonempty f s r : parse_expr f s = Ok r -> skip_ws s <> "".
Proof.
  destruct f; [discriminate|]. cbn [parse_expr]. intros H E. rewrite E in H.
  discriminate.
Qed.

Lemma parse_items_comma f close s e r2 :
  parse_expr f s = Ok (e, String "," r2) ->
  starts_not close s = true ->
  parse_items (S f) close s
  = ('(es, _, r3) <- parse_items f close r2 ;; Ok (e :: es, true, r3))%result.
Proof.
  intros H Hs. pose proof (parse_expr_nonempty _ _ _ H) as Hne.
  rewrite <- parse_expr_skip in H. unfold starts_not in Hs.
  cbn [parse_items]. destruct (skip_ws s) as [|c r]; [congruence|].
  rewrite negb_true_iff in Hs. rewrite Hs, H. reflexivity.
Qed.

Lemma parse_items_close f close s e r2 :
  parse_expr f s = Ok (e, String close r2) ->
  starts_not close s = true ->
  (close =? ",")%char = false ->
  parse_items (S f) close s = Ok ([e], false, r2).
Proof.
  intros H Hs Hc. pose proof (parse_expr_nonempty _ _ _ H) as Hne.
  rewrite <- parse_expr_skip in H. unfold starts_not in Hs.
  cbn [parse_items]. destruct (skip_ws s) as [|c r]; [congruence|].
  rewrite negb_true_iff in Hs. rewrite Hs, H. cbn [rbind].
  now rewrite Hc, Ascii.eqb_refl.
Qed.

Lemma parse_pairs_comma f s k v r2 r4 :
  parse_expr f s = Ok (k, String ":" r2) ->
  parse_expr f r2 = Ok (v, String "," r4) ->
  starts_not "}" s = true ->
  parse_pairs (S f) s
  = ('(kvs, r5) <- parse_pairs f r4 ;; Ok ((k, v) :: kvs, r5))%result.
Proof.
  intros H Hv Hs. pose proof (parse_expr_nonempty _ _ _ H) as Hne.
  rewrite <- parse_expr_skip in H. unfold starts_not in Hs.
  cbn [parse_pairs]. destruct (skip_ws s) as [|c r]; [congruence|].
  rewrite negb_true_iff in Hs. rewrite Hs, H. cbn [rbind].
  rewrite Hv. reflexivity.
Qed.

Lemma parse_pairs_close f s k v r2 r4 :
  parse_expr f s = Ok (k, String ":" r2) ->
  parse_expr f r2 = Ok (v, String "}" r4) ->
  starts_not "}" s = true ->
  parse_pairs (S f) s = Ok ([(k, v)], r4).
Proof.
  intros H Hv Hs. pose proof (parse_expr_nonempty _ _ _ H) as Hne.
  rewrite <- parse_expr_skip in H. unfold starts_not in Hs.
  cbn [parse_pairs]. destruct (skip_ws s) as [|c r]; [congruence|].
  rewrite negb_true_iff in Hs. rewrite Hs, H. cbn [rbind].
  rewrite Hv. reflexivity.
Qed.

Lemma parse_quoted f (body rest r : string) :
  plain body = true ->
  skip_ws rest = r ->
  parse_expr (S f) (String squote (body ++ String squote rest)) = Ok (EStr body, r).
Proof.
  intros H <-.
  change (parse_expr (S f) (String squote (body ++ String squote rest)))
    with (rbind (read_quoted squote (body ++ String squote rest))
            (fun '(b, r') => Ok (EStr b, skip_ws r'))).
  now rewrite read_quoted_plain.
Qed.

Lemma parse_int_list_to (l : list Z) (f : nat) (rest r : string) :
  skip_ws rest = r ->
  parse_expr (S (S (S (S (List.length l + f))))) (str_int_list l ++ rest)
  = Ok (EList (map int_expr l), r).
Proof. intros <-. apply parse_int_list. Qed.

Lemma str_int_nonempty (z : Z) : (1 <= String.length (str_int z))%nat.
Proof.
  destruct (str_int_head z) as (c & r & E & _). rewrite E. simpl. lia.
Qed.

Lemma length_join_ints (l : list Z) :
  (List.length l <= String.length (join ", " (map str_int l)))%nat.
Proof.
  induction l as [|z l IH]; [simpl; lia|].
  pose proof (str_int_nonempty z).
  cbn [map join List.length]. destruct (map str_int l) eqn:E.
  - destruct l; [simpl; lia|discriminate].
  - rewrite !length_append_s. lia.
Qed.

Lemma length_str_int_list (l : list Z) :
  (List.length l <= String.length (str_int_list l))%nat.
Proof.
  unfold str_int_list. rewrite !length_append_s.
  pose proof (length_join_ints l). lia.
Qed.

(** *** The payload of a function-level line *)

Ltac blanks := cbn [skip_ws append]; simpl (_ =? _)%char; cbn [orb].

Lemma parse_function_payload (n k : string) (b : list Z) :
  plain n = true -> plain k = true ->
  parse_expr (8 + List.length b)
    ("BoxFunction('" ++ n ++ "', '" ++ k ++ "', " ++ str_int_list b ++ ", None)" ++ NL)
  = Ok (ECall "BoxFunction" [EStr n; EStr k; EList (map int_expr b); ENone], NL).
Proof.
  intros Hn Hk. cbn [Nat.add].
  change (parse_expr (S (S (S (S (S (S (S (S (List.length b)))))))))
            ("BoxFunction('" ++ n ++ "', '" ++ k ++ "', " ++ str_int_list b ++ ", None)" ++ NL))
    with (rbind (parse_items (S (S (S (S (S (S (S (List.length b))))))))
                   ")" ("'" ++ n ++ "', '" ++ k ++ "', " ++ str_int_list b ++ ", None)" ++ NL))
            (fun '(args, _, r3) => Ok (ECall "BoxFunction" args, skip_ws r3))).
  erewrite parse_items_comma;
    [| cbn [append]; apply parse_quoted; [assumption|reflexivity] | reflexivity].
  blanks. rewrite parse_items_space.
  erewrite parse_items_comma;
    [| cbn [append]; apply parse_quoted; [assumption|reflexivity] | reflexivity].
  blanks. rewrite parse_items_space.
  erewrite parse_items_comma; [| | ].
  2: { rewrite <- (Nat.add_0_r (List.length b)). apply parse_int_list_to. reflexivity. }
  2: { unfold str_int_list. reflexivity. }
  rewrite parse_items_space.
  erewrite parse_items_close; [| reflexivity | reflexivity | reflexivity].
  reflexivity.
Qed.

Lemma eval_ints (l : list Z) :
  (fix go (es : list expr) : result (list pyval) :=
     match es with
     | [] => Ok []
     | x :: r => (v <- eval_expr x ;; vs <- go r ;; Ok (v :: vs))%result
     end) (map int_expr l) = Ok (map VInt l).
Proof.
  induction l as [|z l IH]; [reflexivity|].
  cbn [map]. rewrite eval_int_expr. cbn [rbind]. rewrite IH. reflexivity.
Qed.

Lemma literal_ints (l : list Z) :
  (fix go (es : list expr) : result (list pyval) :=
     match es with
     | [] => Ok []
     | x :: r => (v <- literal x ;; vs <- go r ;; Ok (v :: vs))%result
     end) (map int_expr l) = Ok (map VInt l).
Proof.
  induction l as [|z l IH]; [reflexivity|].
  cbn [map]. rewrite literal_int_expr. cbn [rbind]. rewrite IH. reflexivity.
Qed.

Lemma drop_meta_line f : drop 4 (ln (meta_line f)) = function_payload f.
Proof.
  unfold ln, meta_line, function_payload. cbn [append drop].
  flatten_strings. reflexivity.
Qed.

Lemma parse_enough f s r :
  parse_expr f s = Ok (r, NL) -> (f <= S (String.length s))%nat -> parse s = Ok r.
Proof.
  intros H Hle. unfold parse.
  rewrite (parse_expr_mono _ _ _ _ H Hle). reflexivity.
Qed.

(** What [eval] makes of the metadata line of a rule without a template
    image: the constructor applied to the four fields. *)
Lemma eval_function_payload (f : BoxFunction) :
  plain (name f) = true -> plain (type f) = true -> image f = None ->
  eval (function_payload f)
  = BoxFunction_new [VStr (name f); VStr (type f); VList (map VInt (box f)); VNone].
Proof.
  intros Hn Hk Hi. unfold eval, function_payload. rewrite Hi.
  rewrite (parse_enough _ _ _ (parse_function_payload _ _ _ Hn Hk)).
  - cbn [rbind eval_expr]. simpl (_ =? _). cbn match.
    cbn [eval_expr rbind]. rewrite eval_ints. reflexivity.
  - cbn [str_image append String.length].
    pose proof (length_str_int_list (box f)).
    repeat (rewrite length_append_s; cbn [String.length]). lia.
Qed.


(** *** The payload of the class-level line *)

Lemma drop_class_meta_line sb dir :
  drop 4 (ln (class_meta_line sb dir)) = class_payload sb dir.
Proof.
  unfold ln, class_meta_line, class_payload. cbn [append drop].
  flatten_strings. reflexivity.
Qed.

Lemma parse_class_payload sb (dir : string) :
  plain dir = true ->
  parse_expr (6 + screen_box_size sb) (class_payload sb dir)
  = Ok (EDict [(EStr "screen_box", screen_box_expr sb); (EStr "directory", EStr dir)],
        NL).
Proof.
  intros Hd. cbn [Nat.add]. unfold class_payload.
  change (parse_expr (S (S (S (S (S (S (screen_box_size sb)))))))
            ("{'screen_box': " ++ str_screen_box sb ++ ", 'directory': '" ++ dir ++ "'}" ++ NL))
    with (rbind (parse_pairs (S (S (S (S (S (screen_box_size sb))))))
                   ("'screen_box': " ++ str_screen_box sb ++ ", 'directory': '" ++ dir ++ "'}" ++ NL))
            (fun '(kvs, r') => Ok (EDict kvs, skip_ws r'))).
  erewrite parse_pairs_comma with (v := screen_box_expr sb);
    [| reflexivity | | reflexivity].
  2: { cbn [append]. rewrite parse_expr_space.
       destruct sb as [l|]; cbn [screen_box_size screen_box_expr str_screen_box].
       - rewrite <- (Nat.add_0_r (List.length l)). apply parse_int_list_to. reflexivity.
       - reflexivity. }
  cbn [append]. rewrite parse_pairs_space.
  erewrite parse_pairs_close; [| reflexivity | | reflexivity].
  2: { rewrite parse_expr_space. apply parse_quoted; [assumption|reflexivity]. }
  reflexivity.
Qed.

Lemma literal_eval_class_payload sb (dir : string) :
  plain dir = true ->
  literal_eval (class_payload sb dir)
  = Ok (VDict [(VStr "screen_box", screen_box_value sb); (VStr "directory", VStr dir)]).
Proof.
  intros Hd. unfold literal_eval.
  rewrite (parse_enough _ _ _ (parse_class_payload sb dir Hd)).
  - cbn [rbind literal]. destruct sb as [l|]; cbn [screen_box_expr literal rbind].
    + rewrite literal_ints. reflexivity.
    + reflexivity.
  - unfold class_payload.
    assert (screen_box_size sb <= String.length (str_screen_box sb))%nat.
    { destruct sb as [l|]; [apply length_str_int_list|simpl; lia]. }
    cbn [append String.length].
    repeat (rewrite length_append_s; cbn [String.length]). lia.
Qed.


(** ** Decoding the lines of an artifact *)

Lemma quotable_inv f :
  quotable f = true ->
  plain (name f) = true /\ plain (type f) = true /\ image f = None.
Proof.
  unfold quotable. rewrite !andb_true_iff. intros [[Hn Hk] Hi].
  repeat split; try assumption. now destruct (image f).
Qed.

Lemma untagged_def_line f : untagged (ln (def_line f)) = true.
Proof. reflexivity. Qed.

Lemma decode_meta_line f rest d acc :
  quotable f = true ->
  decode (ln (meta_line f) :: rest) d acc
  = (v <- construct f ;; decode (skipn 2 rest) d (acc ++ [v])%list)%result.
Proof.
  intros Hq. destruct (quotable_inv f Hq) as (Hn & Hk & Hi).
  rewrite decode_cons.
  change (String.length (ln (meta_line f)) <? 4)%nat with false.
  change (take 3 (ln (meta_line f)) =? "# c") with false.
  change (take 3 (ln (meta_line f)) =? "# f") with true.
  cbv iota. rewrite drop_meta_line, eval_function_payload by assumption.
  reflexivity.
Qed.

Lemma decode_rules fs : forall f tail d acc,
  forallb quotable (f :: fs) = true ->
  decode (map ln (flat_map function_lines (f :: fs)) ++ tail)%list d acc
  = (acc' <- construct_all (f :: fs) acc ;; decode (skipn 1 tail) d acc')%result.
Proof.
  induction fs as [|g fs IH]; intros f tail d acc H;
    cbn [forallb] in H; apply andb_prop in H; destruct H as [Hf Hfs].
  - cbn [flat_map function_lines map app].
    rewrite decode_untagged by apply untagged_def_line.
    rewrite decode_meta_line by assumption.
    cbn [construct_all skipn]. destruct (construct f); reflexivity.
  - change (flat_map function_lines (f :: g :: fs))
      with (function_lines f ++ flat_map function_lines (g :: fs))%list.
    rewrite map_app, <- List.app_assoc.
    cbn [function_lines map app].
    rewrite decode_untagged by apply untagged_def_line.
    rewrite decode_meta_line by assumption.
    cbn [skipn].
    assert (E : forall acc0,
      decode (skipn 1 (map ln (flat_map function_lines (g :: fs)) ++ tail)%list) d acc0
      = decode (map ln (flat_map function_lines (g :: fs)) ++ tail)%list d acc0).
    { intros acc0. cbn [flat_map function_lines map app skipn].
      now rewrite (decode_untagged (ln (def_line g))) by apply untagged_def_line. }
    cbn [construct_all]. destruct (construct f) as [v| | |]; try reflexivity.
    cbn [rbind]. rewrite E. apply IH. assumption.
Qed.

Lemma untagged_body f :
  forallb untagged (map ln (body_lines f ++ [""])) = true.
Proof.
  unfold body_lines.
  destruct (type f =? "string"); [reflexivity|].
  destruct (type f =? "number"); [reflexivity|].
  destruct (type f =? "position"); reflexivity.
Qed.

Lemma forallb_skipn {A} (p : A -> bool) (n : nat) (l : list A) :
  forallb p l = true -> forallb p (skipn n l) = true.
Proof.
  revert l. induction n as [|n IH]; intros l H; [exact H|].
  destruct l as [|x l]; [reflexivity|]. cbn [skipn]. apply IH.
  cbn [forallb] in H. now apply andb_prop in H.
Qed.

(** The decoder on the lines of an artifact: the directory of the
    class-level line, and the constructor applied to every rule in
    order. *)
Lemma decode_artifact name sb dir functions last :
  plain dir = true ->
  forallb quotable (functions ++ [last]) = true ->
  decode (skipn 3 (map ln (artifact_lines name sb dir (functions ++ [last]) last)))
    VNone []
  = (acc <- construct_all (functions ++ [last]) [] ;; Ok (VStr dir, acc))%result.
Proof.
  intros Hd Hq. unfold artifact_lines.
  rewrite map_app. cbn [header_lines map app skipn].
  do 6 (rewrite decode_untagged by reflexivity).
  rewrite (decode_untagged (ln (class_line name))) by reflexivity.
  rewrite decode_cons.
  change (String.length (ln (class_meta_line sb dir)) <? 4)%nat with false.
  change (take 3 (ln (class_meta_line sb dir)) =? "# c") with true.
  cbv iota.
  rewrite drop_class_meta_line, literal_eval_class_payload by assumption.
  cbn [rbind]. change (subscript _ "directory") with (Ok (A:=pyval) (VStr dir)).
  cbn [rbind skipn].
  do 4 (rewrite decode_untagged by reflexivity).
  rewrite (decode_untagged (ln (grab_line sb)))
    by (unfold grab_line; destruct (truthy sb); reflexivity).
  do 3 (rewrite decode_untagged by reflexivity).
  rewrite map_app.
  destruct (functions ++ [last])%list as [|f fs] eqn:E.
  { now destruct functions. }
  rewrite decode_rules by assumption.
  destruct (construct_all (f :: fs) []) as [acc| | |]; try reflexivity.
  cbn [rbind]. apply decode_all_untagged, forallb_skipn, untagged_body.
Qed.


(** ** The constructor of [Library] *)

(** C5, as stated, fails: a library with two rules named ["price"] is
    constructed, and no error is raised. *)
Lemma C5_duplicate_names_are_constructed :
  Library_init "lib" None "./out" [price; price]
  = Ok (mkLibrary "lib" None "./out" [price; price])
  /\ Library_init "lib" None "./out" [price; price] <> Raise DuplicateName.
Proof. split; [reflexivity|discriminate]. Qed.

(** C5, amended: the construction of a [Library] always succeeds and
    stores the destination, the capture region, the output directory and
    the rules as they were given, whether or not two rules share a
    name. *)
Theorem C5_construction_stores_arguments :
  forall dest region dir rules,
    exists L,
      Library_init dest region dir rules = Ok L
      /\ destination L = dest
      /\ screen_box L = region
      /\ directory L = dir
      /\ functions L = rules.
Proof.
  intros. eexists. split; [reflexivity|]. repeat split.
Qed.

(** ** The encoder *)

Lemma exists_last_fn (functions : list BoxFunction) :
  functions <> [] -> exists init last, functions = (init ++ [last])%list.
Proof.
  intros H. destruct (exists_last H) as (init & last & E). eauto.
Qed.

(** C9: with an empty sequence of rules the encoder raises, the loop
    variable [function] being unbound after the loop, and leaves the
    header alone in the file; whenever the encoder returns normally the
    sequence of rules is not empty; and it does return normally on a
    non-empty sequence of rules whose boxes have four entries or more. *)
Theorem C9_empty_rules_unbound :
  (forall fs destination screen_box directory,
      create_library fs destination screen_box directory []
      = (fs_write (destination ++ ".py")
           (lns (header_lines (basename (normpath destination)) screen_box directory))
           fs,
         Raise UnboundLocalError))
  /\ (forall fs destination screen_box directory functions,
         snd (create_library fs destination screen_box directory functions) = Ok tt ->
         functions <> [])
  /\ (forall fs destination screen_box directory functions,
         functions <> [] -> forallb long_box functions = true ->
         snd (create_library fs destination screen_box directory functions) = Ok tt).
Proof.
  split; [|split].
  - intros. apply create_library_empty.
  - intros fs destination sb dir functions H E. subst functions.
    rewrite create_library_empty in H. discriminate.
  - intros fs destination sb dir functions Hne Hb.
    destruct (exists_last_fn functions Hne) as (init & last & E). subst functions.
    now rewrite create_library_text.
Qed.

(** The theorem on the library of the example. *)
Lemma C9_empty_rules_unbound_witness :
  snd (create_library [] "lib" None "./out" [score]) = Ok tt
  /\ [score] <> [].
Proof.
  destruct C9_empty_rules_unbound as (_ & H2 & H3).
  assert (E : snd (create_library [] "lib" None "./out" [score]) = Ok tt).
  { apply H3; [discriminate|reflexivity]. }
  split; [exact E|]. exact (H2 _ _ _ _ _ E).
Defined.

(** The body generated for the kind ["number"], as the source writes
    it. *)
Example number_body_lines :
  map number_text number_body
  = ["        im = cropped.filter(ImageFilter.EDGE_ENHANCE_MORE)";
     "        npcropped = numpy.array(im)[:, :, ::-1].copy()";
     "        npcropped = cv2.resize(npcropped, (0,0), fx=3, fy=3)";
     "        im = Image.fromarray(npcropped)";
     "        im = im.convert('L')";
     "        im = im.point(lambda x: 0 if x<100 else 255, '1')";
     "        return float(self.tool.image_to_string(im, lang=" ++ DQ ++ "eng" ++ DQ
       ++ ", builder=pyocr.builders.TextBuilder()))"].
Proof. reflexivity. Qed.

(** C4, as stated, fails: in the artifact of the library of the example
    (one rule of kind ["number"]) the thresholding line has the cutoff
    100; no line thresholds at 127 or 128, the middle of 0..255, and
    the generated function sends the pixel value 110 to 255 where a
    cutoff at the middle sends it to 0. *)
Lemma C4_cutoff_is_not_the_midpoint :
  let lines := written_lines (fst (create_library [] "lib" None "./out" [score])) "lib" in
  has_line (ln (number_text (Threshold 100))) lines = true
  /\ has_line (ln (number_text (Threshold 127))) lines = false
  /\ has_line (ln (number_text (Threshold 128))) lines = false
  /\ point 100 110 = 255%Z /\ point 127 110 = 0%Z /\ point 128 110 = 0%Z.
Proof. vm_compute. repeat split. Qed.

(** C4, amended: for a library whose last rule has the kind ["number"]
    (and whose boxes have four entries or more) the encoder returns
    normally and the artifact ends, after the lines of the rules, with
    the body that applies in this order: edge enhancement, conversion to
    an array, 3x upscaling, conversion back to an image, grayscale
    conversion, binary thresholding at the fixed cutoff 100 (a pixel
    below 100 becomes 0, any other 255), then text recognition converted
    by [float]. *)
Theorem C4_number_body_cutoff_100 :
  forall fs destination screen_box directory functions last,
    type last = "number" ->
    forallb long_box (functions ++ [last]) = true ->
    create_library fs destination screen_box directory (functions ++ [last])
    = (fs_write (destination ++ ".py")
         (lns (header_lines (basename (normpath destination)) screen_box directory
               ++ flat_map function_lines (functions ++ [last])
               ++ map number_text
                    [EdgeEnhance; ToArray; Upscale 3 3; FromArray; Grayscale;
                     Threshold 100; OcrFloat]
               ++ [""])%list) fs,
       Ok tt)
    /\ (forall x, point 100 x = if (x <? 100)%Z then 0%Z else 255%Z).
Proof.
  intros fs destination sb dir functions last Ht Hb. split; [|reflexivity].
  rewrite create_library_text by assumption.
  unfold artifact_lines, body_lines. rewrite Ht. reflexivity.
Qed.

(** The theorem on the library of the example. *)
Lemma C4_number_body_cutoff_100_witness :
  type score = "number"
  /\ forallb long_box ([] ++ [score]) = true
  /\ snd (create_library [] "lib" None "./out" ([] ++ [score])) = Ok tt.
Proof.
  split; [reflexivity|]. split; [reflexivity|].
  now rewrite (proj1 (C4_number_body_cutoff_100 [] "lib" None "./out" [] score
                        eq_refl eq_refl)).
Defined.

(** The chain of tests on the kind stands after the loop: the body of
    the kind ["number"] is written when the rule of that kind is the
    last one, and is not when another rule follows it. *)
Example body_for_the_last_rule_only :
  has_line (ln (number_text EdgeEnhance))
    (written_lines (fst (create_library [] "lib" None "./out" [price; score])) "lib")
  = true
  /\ has_line (ln (number_text EdgeEnhance))
       (written_lines (fst (create_library [] "lib" None "./out" [score; price])) "lib")
     = false.
Proof. vm_compute. split; reflexivity. Qed.


(** *** The metadata lines of the rules *)

Lemma fs_read_write path text fs : fs_read path (fs_write path text fs) = Some text.
Proof. unfold fs_write. cbn [fs_read]. now rewrite String.eqb_refl. Qed.

Lemma filter_cons_false {A} (p : A -> bool) (x : A) (l : list A) :
  p x = false -> filter p (x :: l) = filter p l.
Proof. intros H. cbn [filter]. now rewrite H. Qed.

Lemma filter_cons_true {A} (p : A -> bool) (x : A) (l : list A) :
  p x = true -> filter p (x :: l) = x :: filter p l.
Proof. intros H. cbn [filter]. now rewrite H. Qed.

Lemma filter_f_header name sb dir :
  filter (tagged "# f") (map ln (header_lines name sb dir)) = [].
Proof.
  unfold header_lines. cbn [map].
  assert (G : tagged "# f" (ln (grab_line sb)) = false)
    by (unfold grab_line; destruct (truthy sb); reflexivity).
  do 23 (rewrite filter_cons_false by reflexivity).
  rewrite filter_cons_false by exact G.
  do 3 (rewrite filter_cons_false by reflexivity).
  reflexivity.
Qed.

Lemma filter_f_functions (fs : list BoxFunction) :
  filter (tagged "# f") (map ln (flat_map function_lines fs))
  = map (fun f => ln (meta_line f)) fs.
Proof.
  induction fs as [|f fs IH]; [reflexivity|].
  cbn [flat_map]. rewrite map_app, filter_app, IH.
  cbn [function_lines map].
  rewrite filter_cons_false by reflexivity.
  rewrite filter_cons_true by reflexivity.
  rewrite filter_cons_false by reflexivity. reflexivity.
Qed.

Lemma filter_none {A} (p : A -> bool) (l : list A) :
  forallb (fun x => negb (p x)) l = true -> filter p l = [].
Proof.
  induction l as [|x l IH]; [reflexivity|].
  cbn [forallb]. rewrite andb_true_iff, negb_true_iff. intros [Hx Hl].
  rewrite filter_cons_false by assumption. auto.
Qed.

Lemma filter_f_body f :
  filter (tagged "# f") (map ln (body_lines f)) = [].
Proof.
  apply filter_none. unfold body_lines.
  destruct (type f =? "string"); [reflexivity|].
  destruct (type f =? "number"); [reflexivity|].
  destruct (type f =? "position"); reflexivity.
Qed.

Lemma artifact_lines_safe cls sb dir functions last :
  line_safe cls = true -> line_safe dir = true ->
  forallb (fun f => line_safe (name f) && line_safe (type f)
                    && line_safe (str_image (image f))) (functions ++ [last]) = true ->
  forallb line_safe (artifact_lines cls sb dir (functions ++ [last]) last) = true.
Proof.
  intros Hn Hd Hf. unfold artifact_lines.
  rewrite !forallb_app, header_lines_safe by assumption. cbn [andb].
  assert (Hl : line_safe (str_image (image last)) = true).
  { rewrite forallb_app in Hf. apply andb_prop in Hf. destruct Hf as [_ Hf].
    cbn [forallb] in Hf. rewrite !andb_true_iff in Hf. tauto. }
  rewrite body_lines_safe by assumption. cbn [forallb andb].
  rewrite andb_true_r.
  induction (functions ++ [last])%list as [|f fs IH]; [reflexivity|].
  cbn [forallb] in Hf. rewrite !andb_true_iff in Hf.
  destruct Hf as [[[H1 H2] H3] H4].
  cbn [flat_map]. rewrite forallb_app, function_lines_safe by assumption.
  cbn [andb]. auto.
Qed.

(** C8, as stated, fails: in the artifact of the library of the example
    the metadata line of the rule comes right after the header
    [def score(self):] of its operation, not before it, and what comes
    right after the metadata line is the statement that crops the
    image. *)
Lemma C8_metadata_line_follows_the_header :
  let lines := written_lines (fst (create_library [] "lib" None "./out" [score])) "lib" in
  adjacent (ln (meta_line score)) (ln (def_line score)) lines = false
  /\ adjacent (ln (def_line score)) (ln (meta_line score)) lines = true
  /\ adjacent (ln (meta_line score)) (ln (crop_line score)) lines = true.
Proof. vm_compute. repeat split. Qed.

(** C8, amended: for every library with at least one rule, whose boxes
    have four entries or more and whose names, kinds, template images,
    directory and class name hold no line end, the lines of the
    artifact are the header, then for every rule in order the three
    lines [def name(self):], [# f BoxFunction('name', 'kind', box,
    image)] and [cropped = self.img.crop([...])], then the body of the
    last rule; so the metadata line of a rule stands right after the
    header of its operation and right before the cropping statement,
    and the function-level metadata lines of the artifact are exactly
    those of the rules, one each, in order. *)
Theorem C8_one_metadata_line_per_rule_in_order :
  forall fs destination screen_box directory functions last,
    forallb long_box (functions ++ [last]) = true ->
    line_safe (basename (normpath destination)) = true ->
    line_safe directory = true ->
    forallb (fun f => line_safe (name f) && line_safe (type f)
                      && line_safe (str_image (image f))) (functions ++ [last]) = true ->
    let lines :=
      written_lines
        (fst (create_library fs destination screen_box directory (functions ++ [last])))
        destination in
    lines
    = map ln (header_lines (basename (normpath destination)) screen_box directory
              ++ flat_map (fun f => [def_line f; meta_line f; crop_line f])
                   (functions ++ [last])
              ++ body_lines last ++ [""])%list
    /\ filter (tagged "# f") lines = map (fun f => ln (meta_line f)) (functions ++ [last]).
Proof.
  intros fs destination sb dir functions last Hb Hn Hd Hf lines.
  assert (E : lines = map ln (artifact_lines (basename (normpath destination)) sb dir
                                (functions ++ [last]) last)).
  { unfold lines, written_lines. rewrite create_library_text by assumption.
    cbn [fst]. rewrite fs_read_write.
    apply readlines_lns, artifact_lines_safe; assumption. }
  split; [exact E|].
  rewrite E. unfold artifact_lines.
  rewrite !map_app, !filter_app, filter_f_header, filter_f_functions.
  rewrite filter_f_body. cbn [app map]. rewrite filter_cons_false by reflexivity.
  cbn [filter]. rewrite List.app_nil_r, ?map_app. reflexivity.
Qed.

(** The theorem on a library of two rules. *)
Lemma C8_one_metadata_line_per_rule_in_order_witness :
  filter (tagged "# f")
    (written_lines (fst (create_library [] "lib" None "./out" ([price] ++ [score])))
       "lib")
  = [ln (meta_line price); ln (meta_line score)].
Proof.
  exact (proj2 (C8_one_metadata_line_per_rule_in_order [] "lib" None "./out"
                  [price] score eq_refl eq_refl eq_refl eq_refl)).
Defined.


(** ** The decoder *)

Lemma tagged_inv tag line :
  tagged tag line = true ->
  (String.length line <? 4)%nat = false /\ (take 3 line =? tag) = true.
Proof.
  unfold tagged. rewrite andb_true_iff, negb_true_iff. tauto.
Qed.





(** *** The indices that the loop tests *)









(** *** Lines that are not tagged *)





(** *** Literal evaluation *)






(** ** The constructor on the rules of a library *)

Lemma construct_known f :
  known_kind (VStr (type f)) = true ->
  four_box f = true ->
  image f = None ->
  construct f = Ok (VBoxFunction f).
Proof.
  unfold four_box. intros Hk Hb Hi. unfold construct.
  destruct f as [n k b i]. cbn [name type box image] in *. subst i.
  apply Nat.eqb_eq in Hb.
  destruct b as [|x [|y [|w [|h [|]]]]]; try discriminate Hb.
  cbn [known_kind] in Hk. cbn [BoxFunction_new map ints_of option_map].
  destruct (kind_of_string k); [reflexivity|discriminate].
Qed.

Lemma portable_inv f :
  portable f = true ->
  quotable f = true /\ four_box f = true /\ known_kind (VStr (type f)) = true.
Proof. unfold portable. rewrite !andb_true_iff. tauto. Qed.

Lemma construct_all_portable fs : forall acc,
  forallb portable fs = true ->
  construct_all fs acc = Ok (acc ++ map VBoxFunction fs)%list.
Proof.
  induction fs as [|f fs IH]; intros acc H.
  - cbn [construct_all map]. now rewrite List.app_nil_r.
  - cbn [forallb] in H. apply andb_prop in H. destruct H as [Hf Hfs].
    destruct (portable_inv f Hf) as (Hq & Hb & Hk).
    destruct (quotable_inv f Hq) as (_ & _ & Hi).
    cbn [construct_all]. rewrite construct_known by assumption.
    cbn [rbind]. rewrite IH by assumption. now rewrite <- List.app_assoc.
Qed.

Lemma portable_quotable f : portable f = true -> quotable f = true.
Proof. intros H. now destruct (portable_inv f H). Qed.

Lemma four_long f : four_box f = true -> long_box f = true.
Proof.
  unfold four_box, long_box. intros Hb.
  apply Nat.eqb_eq in Hb. rewrite Hb. reflexivity.
Qed.

Lemma portable_long f : portable f = true -> long_box f = true.
Proof. intros H. apply four_long. now destruct (portable_inv f H) as (_ & ? & _). Qed.

Lemma forallb_impl {A} (p q : A -> bool) (l : list A) :
  (forall x, p x = true -> q x = true) -> forallb p l = true -> forallb q l = true.
Proof.
  intros Hpq. induction l as [|x l IH]; [reflexivity|].
  cbn [forallb]. rewrite !andb_true_iff. intros [H1 H2]. auto.
Qed.

Lemma quotable_safe f :
  quotable f = true ->
  line_safe (name f) && line_safe (type f) && line_safe (str_image (image f)) = true.
Proof.
  intros H. destruct (quotable_inv f H) as (Hn & Hk & Hi).
  rewrite (plain_line _ Hn), (plain_line _ Hk), Hi. reflexivity.
Qed.

(** What the decoder returns on the file of a library whose rules have
    quotable names and kinds, no template image and boxes of four
    entries or more. *)
Lemma load_created fs destination sb dir functions last :
  line_safe (basename (normpath destination)) = true ->
  plain dir = true ->
  forallb quotable (functions ++ [last]) = true ->
  forallb long_box (functions ++ [last]) = true ->
  load_library
    (fst (create_library fs destination sb dir (functions ++ [last])))
    (destination ++ ".py")
  = (acc <- construct_all (functions ++ [last]) [] ;;
     Ok (VTuple [VStr dir; VList acc]))%result.
Proof.
  intros Hn Hd Hq Hb.
  rewrite create_library_text by assumption. cbn [fst].
  unfold load_library. rewrite fs_read_write.
  rewrite readlines_lns.
  2: { apply artifact_lines_safe; [assumption|now apply plain_line|].
       revert Hq. apply forallb_impl. apply quotable_safe. }
  rewrite load_lines_decode, decode_artifact by assumption.
  destruct (construct_all _ _); reflexivity.
Qed.

(** ** No check of the kind *)






(** ** The round trip *)

(** C1, as stated, fails: for the library of the example with a capture
    region, what decoding returns is the pair (directory, rules); the
    capture region is not part of it. *)
Lemma C1_decode_returns_no_capture_region :
  let fs := fst (create_library [] "lib" (Some [0; 0; 200; 100]%Z) "./out" [score]) in
  load_library fs "lib.py" = Ok (VTuple [VStr "./out"; VList [VBoxFunction score]])
  /\ load_library fs "lib.py"
     <> Ok (VTuple [VList [VInt 0; VInt 0; VInt 200; VInt 100]; VStr "./out";
                    VList [VBoxFunction score]]).
Proof. vm_compute. split; [reflexivity|discriminate]. Qed.

(** C1, amended: for every library with at least one rule, whose class
    name holds no line end, whose output directory, rule names and
    kinds hold no single quote, backslash, line end or NUL, and whose
    rules have a kind of the closed set, a box of four integers and no
    template image, encoding returns normally and decoding the file
    returns the pair of the output directory and of the rules, every
    field of every rule unchanged and in the original order; the
    capture region is not returned. *)
Theorem C1_roundtrip_directory_and_rules :
  forall fs destination screen_box directory functions,
    line_safe (basename (normpath destination)) = true ->
    plain directory = true ->
    functions <> [] ->
    forallb portable functions = true ->
    snd (create_library fs destination screen_box directory functions) = Ok tt
    /\ load_library
         (fst (create_library fs destination screen_box directory functions))
         (destination ++ ".py")
       = Ok (VTuple [VStr directory; VList (map VBoxFunction functions)]).
Proof.
  intros fs destination sb dir functions Hn Hd Hne Hp.
  destruct (exists_last_fn functions Hne) as (init & last & E). subst functions.
  assert (Hb : forallb long_box (init ++ [last]) = true)
    by (revert Hp; apply forallb_impl, portable_long).
  assert (Hq : forallb quotable (init ++ [last]) = true)
    by (revert Hp; apply forallb_impl, portable_quotable).
  split.
  - now rewrite create_library_text.
  - rewrite load_created by assumption.
    now rewrite construct_all_portable.
Qed.

(** The theorem on a library of two rules with a capture region. *)
Lemma C1_roundtrip_directory_and_rules_witness :
  load_library
    (fst (create_library [] "/tmp/lib" (Some [0; 0; 200; 100]%Z) "./out" [price; score]))
    "/tmp/lib.py"
  = Ok (VTuple [VStr "./out"; VList [VBoxFunction price; VBoxFunction score]]).
Proof.
  apply (C1_roundtrip_directory_and_rules [] "/tmp/lib" (Some [0; 0; 200; 100]%Z)
           "./out" [price; score]);
    first [reflexivity | discriminate].
Defined.

(** *** What the conditions of the round trip exclude *)

(** A quote in the directory closes the literal early: the decoder
    returns another directory. *)
Example directory_with_a_quote :
  load_library
    (fst (create_library [] "lib" None "a', 'directory': 'b" [score])) "lib.py"
  = Ok (VTuple [VStr "b"; VList [VBoxFunction score]]).
Proof. vm_compute. reflexivity. Qed.

(** A line end in the directory cuts the class-level line in two: the
    literal is not closed on its line. *)
Example directory_with_a_line_end :
  load_library
    (fst (create_library [] "lib" None ("a" ++ NL ++ "b") [score])) "lib.py"
  = Raise SyntaxError.
Proof. vm_compute. reflexivity. Qed.

(** The path of a template image is written without quotes, where the
    name and the kind are written between quotes. *)
Example template_image_is_written_bare :
  meta_line logo = "# f BoxFunction('logo', 'position', [0, 0, 5, 5], t.png)".
Proof. reflexivity. Qed.

(** A box with fewer than four entries stops the encoder, the rules
    before it having been written. *)
Example short_box_stops_the_encoder :
  snd (create_library [] "lib" None "./out"
         [score; mkBoxFunction "short" "string" [1; 2; 3]%Z None])
  = Raise IndexError.
Proof. vm_compute. reflexivity. Qed.


(** ** The capture loop *)

Module CaptureLoop.
Import CreateView.

Lemma dispatch_spec c v w :
  dispatch c v w
  = (v, mkWorld (now_calls w) (dirs w) (trace w ++ click_event c)%list).
Proof.
  destruct c; unfold dispatch, onclicked_stop, onclicked_analyse, emit;
    cbn [click_event trace now_calls dirs];
    rewrite <- ?List.app_assoc; reflexivity.
Qed.

Lemma dispatch_all_spec cs : forall v w,
  dispatch_all cs v w
  = (v, mkWorld (now_calls w) (dirs w) (trace w ++ click_events cs)%list).
Proof.
  induction cs as [|c cs IH]; intros v w.
  - cbn [dispatch_all click_events flat_map]. rewrite List.app_nil_r.
    now destruct w.
  - cbn [dispatch_all]. rewrite dispatch_spec, IH.
    cbn [now_calls dirs trace]. rewrite <- List.app_assoc. reflexivity.
Qed.


(** The loop as it runs while the flag is set: it is never left, the
    view is unchanged, and the events are those of [loop_events]. *)
Lemma capture_loop_runs clock clicks region time_folder fuel : forall k v w,
  capture_screen v = true ->
  capture_loop clock clicks fuel k region time_folder v w
  = (v,
     mkWorld (now_calls w + fuel) (dirs w)
       (trace w ++ loop_events clock clicks region time_folder fuel k (now_calls w))%list,
     false).
Proof.
  induction fuel as [|fuel IH]; intros k v w Hv.
  - cbn [capture_loop loop_events]. rewrite Hv, Nat.add_0_r, List.app_nil_r.
    now destruct w.
  - cbn [capture_loop loop_events]. rewrite Hv.
    unfold now, emit. cbn [now_calls dirs trace].
    rewrite dispatch_all_spec. cbn [now_calls dirs trace].
    rewrite IH by assumption. cbn [now_calls dirs trace].
    rewrite <- !List.app_assoc. cbn [app].
    do 2 f_equal. f_equal. lia.
Qed.

Lemma count_grabs_app a b : count_grabs (a ++ b)%list = (count_grabs a + count_grabs b)%nat.
Proof.
  induction a as [|e a IH]; [reflexivity|].
  destruct e; cbn [app count_grabs]; rewrite IH; reflexivity.
Qed.

Lemma count_grabs_clicks cs : count_grabs (click_events cs) = 0%nat.
Proof.
  induction cs as [|c cs IH]; [reflexivity|].
  cbn [click_events flat_map]. rewrite count_grabs_app. fold (click_events cs).
  rewrite IH. now destruct c.
Qed.

Lemma count_grabs_loop clock clicks region tf fuel : forall k n,
  count_grabs (loop_events clock clicks region tf fuel k n) = fuel.
Proof.
  induction fuel as [|fuel IH]; intros k n; [reflexivity|].
  cbn [loop_events count_grabs]. rewrite count_grabs_app, count_grabs_clicks, IH.
  reflexivity.
Qed.

Lemma no_sleep_app a b :
  existsb is_sleep (a ++ b)%list = existsb is_sleep a || existsb is_sleep b.
Proof. apply existsb_app. Qed.

Lemma no_sleep_clicks cs : existsb is_sleep (click_events cs) = false.
Proof.
  induction cs as [|c cs IH]; [reflexivity|].
  cbn [click_events flat_map]. rewrite no_sleep_app. fold (click_events cs).
  rewrite IH. now destruct c.
Qed.

Lemma no_sleep_loop clock clicks region tf fuel : forall k n,
  existsb is_sleep (loop_events clock clicks region tf fuel k n) = false.
Proof.
  induction fuel as [|fuel IH]; intros k n; [reflexivity|].
  cbn [loop_events existsb is_sleep orb].
  now rewrite no_sleep_app, no_sleep_clicks, IH.
Qed.

(** The handler of the start button: what it does before the loop is
    one print, one reading of the clock and, when the folder is not
    there, its creation. *)
Lemma onclicked_start_runs clock clicks fuel v w :
  exists region folder made,
    onclicked_start clock clicks fuel v w
    = (mkView (box v) true (frequency_spin_box v),
       mkWorld (S (now_calls w) + fuel) (made ++ dirs w)
         (trace w
          ++ Stdout ("start " ++ str_int (frequency_spin_box v))
          :: map Makedirs made
          ++ loop_events clock clicks region folder fuel 0 (S (now_calls w)))%list,
       false)
    /\ region = (if is_int (box v) then None else Some (box v))
    /\ folder = strftime ":" (clock (now_calls w))
    /\ made = (if existsb (String.eqb ("./" ++ folder)) (dirs w) then []
               else ["./" ++ folder]).
Proof.
  exists (if is_int (box v) then None else Some (box v)).
  exists (strftime ":" (clock (now_calls w))).
  exists (if existsb (String.eqb ("./" ++ strftime ":" (clock (now_calls w)))) (dirs w)
          then [] else ["./" ++ strftime ":" (clock (now_calls w))]).
  split; [|repeat split].
  unfold onclicked_start, now, emit.
  cbn [now_calls dirs trace box capture_screen frequency_spin_box].
  destruct (existsb _ (dirs w)) eqn:E;
    destruct (is_int (box v));
    rewrite capture_loop_runs by reflexivity;
    unfold makedirs; cbn [now_calls dirs trace map app];
    rewrite <- ?List.app_assoc; reflexivity.
Qed.

End CaptureLoop.

(** C6 on the code: the handler of the stop button changes nothing in
    the view, the flag [capture_screen] included; and whatever clicks
    reach the window while the loop runs (a click on stop during turn
    [k], say), after any number [n] of turns the loop has not been left,
    the flag is still set and [n] captures have been taken: turn
    [k + 1] begins all the same. *)
Theorem C6_stop_click_does_not_end_the_loop :
  (forall v w, fst (CreateView.onclicked_stop v w) = v)
  /\ (forall clock clicks n v w,
         let r := CreateView.onclicked_start clock clicks n v w in
         snd r = false
         /\ CreateView.capture_screen (fst (fst r)) = true
         /\ CreateView.count_grabs (CreateView.trace (snd (fst r)))
            = (CreateView.count_grabs (CreateView.trace w) + n)%nat).
Proof.
  split; [reflexivity|].
  intros clock clicks n v w r. subst r.
  destruct (CaptureLoop.onclicked_start_runs clock clicks n v w)
    as (region & folder & made & E & _ & _ & Hm).
  rewrite E. cbn [fst snd CreateView.capture_screen CreateView.trace].
  repeat split.
  rewrite CaptureLoop.count_grabs_app. cbn [CreateView.count_grabs].
  rewrite CaptureLoop.count_grabs_app, CaptureLoop.count_grabs_loop.
  replace (CreateView.count_grabs (map CreateView.Makedirs made)) with 0%nat
    by (subst made; destruct (existsb _ _); reflexivity).
  reflexivity.
Qed.

(** C7 on the code: the period read from the spin box is printed and
    never used: two runs that differ in the period only produce, after
    the first print, the same events, and none of them is a wait. *)
Theorem C7_capture_loop_ignores_the_period :
  forall clock clicks n v w p q,
    let run period :=
      CreateView.onclicked_start clock clicks n
        (CreateView.mkView (CreateView.box v) (CreateView.capture_screen v) period) w in
    exists tail,
      CreateView.trace (snd (fst (run p)))
      = (CreateView.trace w
         ++ CreateView.Stdout ("start " ++ str_int p) :: tail)%list
      /\ CreateView.trace (snd (fst (run q)))
         = (CreateView.trace w
            ++ CreateView.Stdout ("start " ++ str_int q) :: tail)%list
      /\ existsb CreateView.is_sleep tail = false.
Proof.
  intros clock clicks n v w p q run. subst run. cbv beta.
  destruct (CaptureLoop.onclicked_start_runs clock clicks n
              (CreateView.mkView (CreateView.box v) (CreateView.capture_screen v) p) w)
    as (region & folder & made & E & Hr & Hf & Hm).
  destruct (CaptureLoop.onclicked_start_runs clock clicks n
              (CreateView.mkView (CreateView.box v) (CreateView.capture_screen v) q) w)
    as (region' & folder' & made' & E' & Hr' & Hf' & Hm').
  subst region folder made region' folder' made'.
  cbn [CreateView.box CreateView.frequency_spin_box] in E, E'.
  rewrite E, E'. cbn [fst snd CreateView.trace].
  eexists. split; [reflexivity|]. split; [reflexivity|].
  rewrite CaptureLoop.no_sleep_app, CaptureLoop.no_sleep_loop, orb_false_r.
  destruct (existsb _ _); reflexivity.
Qed.


(** * Further properties of the code *)

(** ** The encoder on any sequence of rules *)

(** A box with fewer than four entries: one of the subscripts
    [function.box[0]] ... [function.box[3]] raises before anything is
    written. *)
Lemma write_function_short f file :
  long_box f = false -> write_function f file = (file, Raise IndexError).
Proof.
  unfold long_box. rewrite Nat.leb_gt. intros H.
  unfold write_function, wbind, lift, item.
  destruct (box f) as [|a [|b [|c [|d l]]]]; try reflexivity.
  cbn [List.length] in H. lia.
Qed.

Lemma for_functions_short pre : forall f post v file,
  forallb long_box pre = true -> long_box f = false ->
  for_functions (pre ++ f :: post) v file
  = ((file ++ map (fun g => lns (function_lines g)) pre)%list, Raise IndexError).
Proof.
  induction pre as [|g pre IH]; intros f post v file Hp Hf.
  - cbn [app for_functions map]. unfold wbind.
    rewrite write_function_short by assumption. now rewrite List.app_nil_r.
  - cbn [forallb] in Hp. apply andb_prop in Hp. destruct Hp as [Hg Hp].
    cbn [app for_functions]. unfold wbind.
    rewrite write_function_ok by assumption.
    rewrite IH by assumption. rewrite <- List.app_assoc. reflexivity.
Qed.

(** The first rule with a short box, if there is one. *)
Lemma first_short_box (functions : list BoxFunction) :
  forallb long_box functions = false ->
  exists pre f post,
    functions = (pre ++ f :: post)%list
    /\ forallb long_box pre = true /\ long_box f = false.
Proof.
  induction functions as [|g functions IH]; intros H; [discriminate|].
  cbn [forallb] in H. destruct (long_box g) eqn:Hg.
  - cbn [andb] in H. destruct (IH H) as (pre & f & post & E & Hp & Hf).
    exists (g :: pre), f, post. subst functions. cbn [forallb].
    rewrite Hg, Hp. repeat split. assumption.
  - exists [], g, functions. repeat split. assumption.
Qed.

Lemma create_library_short fs destination sb dir pre f post :
  forallb long_box pre = true -> long_box f = false ->
  create_library fs destination sb dir (pre ++ f :: post)
  = (fs_write (destination ++ ".py")
       (lns (header_lines (basename (normpath destination)) sb dir
             ++ flat_map function_lines pre)) fs,
     Raise IndexError).
Proof.
  intros Hp Hf. unfold create_library.
  rewrite write_library_split. cbv zeta.
  rewrite for_functions_short by assumption.
  f_equal. f_equal.
  now rewrite concat_empty_app, concat_header, concat_lns_map, lns_app.
Qed.

Lemma create_library_snd fs destination sb dir functions :
  snd (create_library fs destination sb dir functions)
  = snd (write_library destination sb dir functions []).
Proof.
  unfold create_library.
  now destruct (write_library destination sb dir functions []).
Qed.

(** X1: once the file is open, how the body of the encoder ends is
    decided by the rules alone: with [UnboundLocalError] without a
    rule, with [IndexError] when the box of some rule has fewer than
    four entries, and normally otherwise; formatting the header and the
    rules raises nothing else, whatever the destination, the capture
    region and the directory.  (The errors of [open] and of the writes
    to the file are not part of the embedding.) *)
Theorem encoder_body_outcome :
  forall destination screen_box directory functions,
    snd (write_library destination screen_box directory functions [])
    = match functions with
      | [] => Raise UnboundLocalError
      | _ :: _ => if forallb long_box functions then Ok tt else Raise IndexError
      end.
Proof.
  intros destination sb dir functions.
  rewrite <- (create_library_snd [] destination sb dir functions).
  destruct functions as [|f0 fs0]; [now rewrite create_library_empty|].
  destruct (forallb long_box (f0 :: fs0)) eqn:H.
  - destruct (exists_last_fn (f0 :: fs0) ltac:(discriminate)) as (init & last & E).
    rewrite E in *. now rewrite create_library_text.
  - destruct (first_short_box _ H) as (pre & f & post & E & Hp & Hf).
    rewrite E. now rewrite create_library_short.
Qed.

(** X2: at the first rule whose box has fewer than four entries the
    encoder raises [IndexError]; the file then holds the header and the
    three lines of every rule before that one, and nothing of the rules
    after it. *)
Theorem create_library_stops_at_a_short_box :
  forall fs destination screen_box directory pre f post,
    forallb long_box pre = true -> long_box f = false ->
    create_library fs destination screen_box directory (pre ++ f :: post)
    = (fs_write (destination ++ ".py")
         (lns (header_lines (basename (normpath destination)) screen_box directory
               ++ flat_map function_lines pre)) fs,
       Raise IndexError).
Proof. intros. now apply create_library_short. Qed.

(** The theorem on a library whose second rule has a box of three
    entries. *)
Lemma create_library_stops_at_a_short_box_witness :
  create_library [] "lib" None "./out"
    [score; mkBoxFunction "short" "string" [1; 2; 3]%Z None; price]
  = (fs_write "lib.py"
       (lns (header_lines "lib" None "./out" ++ function_lines score)) [],
     Raise IndexError).
Proof.
  apply (create_library_stops_at_a_short_box [] "lib" None "./out" [score]
           (mkBoxFunction "short" "string" [1; 2; 3]%Z None) [price]);
    reflexivity.
Defined.

(** ** The header of the artifact *)

(** Whatever the rules, the text of the file begins with the header. *)
Lemma created_text fs destination sb dir functions :
  exists rest,
    fs_read (destination ++ ".py")
      (fst (create_library fs destination sb dir functions))
    = Some (lns (header_lines (basename (normpath destination)) sb dir) ++ rest).
Proof.
  destruct functions as [|f0 fs0].
  { exists "". rewrite create_library_empty. cbn [fst].
    now rewrite fs_read_write, append_empty_r. }
  destruct (forallb long_box (f0 :: fs0)) eqn:H.
  - destruct (exists_last_fn (f0 :: fs0) ltac:(discriminate)) as (init & last & E).
    rewrite E in *. rewrite create_library_text by assumption. cbn [fst].
    rewrite fs_read_write. unfold artifact_lines. rewrite lns_app. eauto.
  - destruct (first_short_box _ H) as (pre & f & post & E & Hp & Hf).
    rewrite E. rewrite create_library_short by assumption. cbn [fst].
    rewrite fs_read_write, lns_app. eauto.
Qed.

Lemma readlines_lns_app (ls : list string) (rest : string) :
  forallb line_safe ls = true ->
  readlines (lns ls ++ rest) = (map ln ls ++ readlines rest)%list.
Proof.
  induction ls as [|l ls IH]; intros H; [reflexivity|].
  cbn [forallb] in H. apply andb_prop in H. destruct H as [Hl Hls].
  cbn [lns map app]. rewrite !append_assoc_s.
  now rewrite readlines_ln, IH.
Qed.

Lemma written_header fs destination sb dir functions :
  line_safe (basename (normpath destination)) = true ->
  line_safe dir = true ->
  exists more,
    written_lines (fst (create_library fs destination sb dir functions)) destination
    = (map ln (header_lines (basename (normpath destination)) sb dir) ++ more)%list.
Proof.
  intros Hn Hd.
  destruct (created_text fs destination sb dir functions) as (rest & E).
  unfold written_lines. rewrite E.
  rewrite readlines_lns_app by now apply header_lines_safe.
  eauto.
Qed.

(** X3: whatever the rules, and also when the encoder raises, the first
    twenty-seven lines of the file are the header: the imports, the
    class line, the class-level metadata line, the constructor and
    [grab_screen] (the class name and the directory holding no line
    end). *)
Theorem header_is_written_whatever_the_rules :
  forall fs destination screen_box directory functions,
    line_safe (basename (normpath destination)) = true ->
    line_safe directory = true ->
    firstn 27
      (written_lines (fst (create_library fs destination screen_box directory functions))
         destination)
    = map ln (header_lines (basename (normpath destination)) screen_box directory).
Proof.
  intros fs destination sb dir functions Hn Hd.
  destruct (written_header fs destination sb dir functions Hn Hd) as (more & E).
  rewrite E.
  change 27%nat
    with (List.length (map ln (header_lines (basename (normpath destination)) sb dir)) + 0)%nat.
  rewrite firstn_app_2. cbn [firstn]. now rewrite List.app_nil_r.
Qed.

(** The theorem on a library without a rule, on which the encoder
    raises. *)
Lemma header_is_written_whatever_the_rules_witness :
  firstn 27 (written_lines (fst (create_library [] "/tmp/lib" None "./out" [])) "/tmp/lib")
  = map ln (header_lines "lib" None "./out").
Proof.
  apply (header_is_written_whatever_the_rules [] "/tmp/lib" None "./out" []);
    reflexivity.
Defined.

Lemma written_line fs destination sb dir functions (i : nat) :
  line_safe (basename (normpath destination)) = true ->
  line_safe dir = true ->
  (i < 27)%nat ->
  nth_error
    (written_lines (fst (create_library fs destination sb dir functions)) destination) i
  = nth_error (map ln (header_lines (basename (normpath destination)) sb dir)) i.
Proof.
  intros Hn Hd Hi.
  destruct (written_header fs destination sb dir functions Hn Hd) as (more & E).
  rewrite E. apply nth_error_app1. exact Hi.
Qed.

(** X4: the generated [grab_screen] takes a shot of the whole screen
    exactly when the capture region is [None] or the empty list, which
    [if screen_box:] counts as false; an empty region is still written
    as [[]] into the class-level line. *)
Theorem empty_region_grabs_the_whole_screen :
  forall fs destination screen_box directory functions,
    line_safe (basename (normpath destination)) = true ->
    line_safe directory = true ->
    let lines :=
      written_lines (fst (create_library fs destination screen_box directory functions))
        destination in
    (nth_error lines 23 = Some (ln "            img = sct.shot()")
     <-> screen_box = None \/ screen_box = Some [])
    /\ (screen_box = Some [] ->
        nth_error lines 10
        = Some (ln ("# c {'screen_box': [], 'directory': '" ++ directory ++ "'}"))).
Proof.
  intros fs destination sb dir functions Hn Hd lines. subst lines.
  rewrite !written_line by (assumption || lia).
  cbn [header_lines map nth_error].
  split; [split|].
  - intros H. injection H as H. unfold grab_line in H.
    destruct sb as [[|z l]|]; auto.
    cbn [truthy] in H. unfold ln in H. cbn [append] in H. discriminate.
  - intros [E|E]; subst sb; reflexivity.
  - intros E. subst sb. reflexivity.
Qed.

(** The theorem on a library with an empty capture region. *)
Lemma empty_region_grabs_the_whole_screen_witness :
  let lines :=
    written_lines (fst (create_library [] "lib" (Some []) "./out" [score])) "lib" in
  (nth_error lines 23 = Some (ln "            img = sct.shot()")
   <-> Some (@nil Z) = None \/ Some (@nil Z) = Some [])
  /\ (Some (@nil Z) = Some [] ->
      nth_error lines 10
      = Some (ln ("# c {'screen_box': [], 'directory': '" ++ "./out" ++ "'}"))).
Proof.
  apply (empty_region_grabs_the_whole_screen [] "lib" (Some []) "./out" [score]);
    reflexivity.
Defined.

Lemma class_line_in_file fs destination sb dir functions :
  line_safe (basename (normpath destination)) = true ->
  plain dir = true ->
  nth_error
    (written_lines (fst (create_library fs destination sb dir functions)) destination) 10
  = Some (ln (class_meta_line sb dir))
  /\ literal_eval (drop 4 (ln (class_meta_line sb dir)))
     = Ok (VDict [(VStr "screen_box", screen_box_value sb);
                  (VStr "directory", VStr dir)]).
Proof.
  intros Hn Hd.
  rewrite written_line by (try assumption; try lia; now apply plain_line).
  split; [reflexivity|].
  now rewrite drop_class_meta_line, literal_eval_class_payload.
Qed.

(** X5: the capture region is in the artifact: when the class name
    holds no line end and the directory no single quote, backslash,
    line end or NUL, line 10 of the file is a class-level metadata
    line, and literal evaluation of its payload gives back the capture
    region and the directory as they were given to the encoder (for
    every region, with negative entries too), whatever the rules. *)
Theorem class_level_line_carries_the_region :
  forall fs destination screen_box directory functions,
    line_safe (basename (normpath destination)) = true ->
    plain directory = true ->
    exists line,
      nth_error
        (written_lines (fst (create_library fs destination screen_box directory functions))
           destination) 10 = Some line
      /\ tagged "# c" line = true
      /\ literal_eval (drop 4 line)
         = Ok (VDict [(VStr "screen_box", screen_box_value screen_box);
                      (VStr "directory", VStr directory)]).
Proof.
  intros fs destination sb dir functions Hn Hd.
  destruct (class_line_in_file fs destination sb dir functions Hn Hd) as [L T].
  exists (ln (class_meta_line sb dir)). repeat split; assumption.
Qed.

(** The theorem on a library with a region of negative origin. *)
Lemma class_level_line_carries_the_region_witness :
  exists line,
    nth_error
      (written_lines
         (fst (create_library [] "lib" (Some [-5; 0; 200; 100]%Z) "./out" [score]))
         "lib") 10 = Some line
    /\ tagged "# c" line = true
    /\ literal_eval (drop 4 line)
       = Ok (VDict [(VStr "screen_box", VList [VInt (-5); VInt 0; VInt 200; VInt 100]);
                    (VStr "directory", VStr "./out")]).
Proof.
  apply (class_level_line_carries_the_region [] "lib" (Some [-5; 0; 200; 100]%Z)
           "./out" [score]);
    reflexivity.
Defined.


(** ** The class name *)

Lemma string_forallb_append (p : ascii -> bool) (a b : string) :
  string_forallb p a = true -> string_forallb p b = true ->
  string_forallb p (a ++ b) = true.
Proof. intros Ha Hb. now rewrite forallb_append, Ha, Hb. Qed.

(** The components between the slashes hold the characters of the path
    that are not slashes. *)
Lemma split_slash_chars (q : ascii -> bool) (s : string) :
  string_forallb (fun c => q c || (c =? "/")%char) s = true ->
  forallb (string_forallb (fun c => q c && not_slash c)) (split_slash s) = true.
Proof.
  induction s as [|c s IH]; intros H; [reflexivity|].
  cbn [string_forallb] in H. apply andb_prop in H. destruct H as [Hc Hs].
  specialize (IH Hs). cbn [split_slash].
  destruct (c =? "/")%char eqn:E.
  - cbn [forallb string_forallb]. exact IH.
  - rewrite orb_false_r in Hc.
    destruct (split_slash s) as [|x xs].
    + cbn [forallb string_forallb]. unfold not_slash. now rewrite Hc, E.
    + cbn [forallb] in IH. apply andb_prop in IH. destruct IH as [Hx Hxs].
      cbn [forallb string_forallb]. unfold not_slash at 1. now rewrite Hc, E, Hx, Hxs.
Qed.

Lemma norm_comps_forallb (P : string -> bool) (k : nat) (comps : list string) :
  forall acc,
    forallb P comps = true -> forallb P acc = true ->
    forallb P (norm_comps k comps acc) = true.
Proof.
  induction comps as [|comp rest IH]; intros acc Hc Ha.
  - cbn [norm_comps]. rewrite forallb_forall in *. intros x Hx.
    apply Ha. now apply in_rev.
  - cbn [forallb] in Hc. apply andb_prop in Hc. destruct Hc as [H1 H2].
    cbn [norm_comps].
    destruct ((comp =? "") || (comp =? ".")); [now apply IH|].
    match goal with |- context [if ?b then _ else _] => destruct b end.
    + apply IH; [assumption|]. cbn [forallb]. now rewrite H1, Ha.
    + apply IH; [assumption|]. destruct acc as [|a acc]; [reflexivity|].
      cbn [forallb] in Ha. apply andb_prop in Ha. now destruct Ha.
Qed.

Lemma join_chars (r : ascii -> bool) (comps : list string) :
  r "/"%char = true ->
  forallb (string_forallb r) comps = true ->
  string_forallb r (join "/" comps) = true.
Proof.
  intros Hs. induction comps as [|x comps IH]; intros H; [reflexivity|].
  cbn [forallb] in H. apply andb_prop in H. destruct H as [Hx Hc].
  cbn [join]. destruct comps as [|y comps]; [exact Hx|].
  apply string_forallb_append; [exact Hx|].
  apply string_forallb_append; [cbn [string_forallb]; now rewrite Hs|].
  now apply IH.
Qed.

Lemma repeat_slash_chars (r : ascii -> bool) (n : nat) :
  r "/"%char = true -> string_forallb r (repeat_string n "/") = true.
Proof.
  intros Hs. induction n as [|n IH]; [reflexivity|].
  cbn [repeat_string append string_forallb]. now rewrite Hs, IH.
Qed.

(** [normpath] brings in no character but the dot of the empty path. *)
Lemma normpath_chars (q : ascii -> bool) (path : string) :
  q "."%char = true ->
  string_forallb (fun c => q c || (c =? "/")%char) path = true ->
  string_forallb (fun c => q c || (c =? "/")%char) (normpath path) = true.
Proof.
  intros Hdot Hp. unfold normpath.
  assert (D : string_forallb (fun c => q c || (c =? "/")%char) "." = true)
    by (cbn [string_forallb]; now rewrite Hdot).
  destruct (path =? ""); [exact D|]. cbv zeta.
  match goal with |- context [if ?p =? "" then _ else _] =>
    destruct (p =? ""); [exact D|] end.
  apply string_forallb_append.
  - apply repeat_slash_chars. apply orb_true_r.
  - apply join_chars; [apply orb_true_r|].
    apply (forallb_impl (string_forallb (fun c => q c && not_slash c))).
    + intros x. apply string_forallb_impl. intros c Hc.
      apply andb_prop in Hc. destruct Hc as [Hc _]. now rewrite Hc.
    + apply norm_comps_forallb; [now apply split_slash_chars|reflexivity].
Qed.

Lemma forallb_last {A} (P : A -> bool) (l : list A) (d : A) :
  forallb P l = true -> P d = true -> P (List.last l d) = true.
Proof.
  induction l as [|x l IH]; intros Hl Hd; [exact Hd|].
  cbn [forallb] in Hl. apply andb_prop in Hl. destruct Hl as [Hx Hl].
  cbn [List.last]. destruct l as [|y l]; [exact Hx|]. now apply IH.
Qed.

(** X6: the class name, the base name of the normalised destination,
    holds no slash, and no character that is not in the destination,
    apart from the dot that stands for an empty path: a property of
    characters that holds of the destination and of the dot holds of
    the class name.  In particular a destination without a line end
    gives a class name without a line end. *)
Theorem class_name_characters :
  forall (q : ascii -> bool) (destination : string),
    q "."%char = true ->
    string_forallb q destination = true ->
    string_forallb (fun c => q c && not_slash c) (basename (normpath destination)) = true.
Proof.
  intros q destination Hdot Hq. unfold basename.
  apply (forallb_last (string_forallb (fun c => q c && not_slash c)));
    [|reflexivity].
  apply split_slash_chars, normpath_chars; [assumption|].
  revert Hq. apply string_forallb_impl. intros c Hc. now rewrite Hc.
Qed.

(** The theorem on the destination of the example, for the characters
    that are not line ends. *)
Lemma class_name_characters_witness :
  string_forallb (fun c => line_char c && not_slash c)
    (basename (normpath "/tmp/../tmp//lib")) = true.
Proof.
  apply (class_name_characters line_char "/tmp/../tmp//lib"); reflexivity.
Defined.

(** ** Where the artifact is *)



(** ** The decoder on artifacts without metadata *)

(** X8: when no line from index 3 on is a tagged metadata line, the
    decoder returns the pair of [None] and of the empty list, without
    an error: so it does on an empty file, on a file of three lines or
    fewer whatever they are, and on any text free of tags. *)
Theorem load_library_without_metadata :
  forall fs destination text,
    fs_read destination fs = Some text ->
    forallb untagged (skipn 3 (readlines text)) = true ->
    load_library fs destination = Ok (VTuple [VNone; VList []]).
Proof.
  intros fs destination text Hr Hu.
  unfold load_library. rewrite Hr.
  rewrite load_lines_decode, decode_all_untagged by assumption.
  reflexivity.
Qed.

(** The theorem on a file whose first three lines are tagged. *)
Lemma load_library_without_metadata_witness :
  load_library
    [("lib.py", lns ["# c {'directory': 'd'}"; "# f 1"; "# f 2"; "import os"; "# x"])]
    "lib.py"
  = Ok (VTuple [VNone; VList []]).
Proof.
  apply (load_library_without_metadata _ "lib.py"
           (lns ["# c {'directory': 'd'}"; "# f 1"; "# f 2"; "import os"; "# x"]));
    reflexivity.
Defined.

(** ** Text after the metadata *)




(** ** A class-level payload without a directory *)

Lemma decode_untagged_prefix pre : forall tail d fs,
  forallb untagged pre = true ->
  decode (pre ++ tail)%list d fs = decode tail d fs.
Proof.
  induction pre as [|l pre IH]; intros tail d fs H; [reflexivity|].
  cbn [forallb] in H. apply andb_prop in H. destruct H as [Hl Hp].
  cbn [app]. rewrite decode_untagged by assumption. now apply IH.
Qed.

Lemma skipn_app_le {A} (n : nat) (l l' : list A) :
  (n <= List.length l)%nat -> skipn n (l ++ l')%list = (skipn n l ++ l')%list.
Proof.
  intros H. rewrite skipn_app.
  replace (n - List.length l)%nat with 0%nat by lia. reflexivity.
Qed.

(** A value of literal evaluation is no object of the program. *)
Lemma literal_no_object e v f : literal e = Ok v -> v <> VBoxFunction f.
Proof.
  intros H E. subst v. destruct e; cbn [literal] in H; try discriminate.
  - destruct e; discriminate.
  - match type of H with rbind ?x _ = _ => destruct x end; discriminate.
  - match type of H with rbind ?x _ = _ => destruct x end; discriminate.
  - match type of H with rbind ?x _ = _ => destruct x end; discriminate.
  - destruct args; [destruct (f0 =? "set")|]; discriminate.
Qed.

(** X9: a class-level line that the decoder reaches and whose payload
    is a literal without a value for ["directory"] stops the decoder:
    with [KeyError] when the payload is a dict that lacks the key, and
    with [TypeError] when it is any other literal (a list, a string, a
    number, [None]); what follows the line is not read. *)
Theorem load_lines_without_directory :
  forall pre line rest v,
    (3 <= List.length pre)%nat ->
    forallb untagged (skipn 3 pre) = true ->
    tagged "# c" line = true ->
    literal_eval (drop 4 line) = Ok v ->
    match v with VDict kvs => dict_get "directory" kvs | _ => None end = None ->
    load_lines (pre ++ line :: rest)
    = Raise (match v with VDict _ => KeyError | _ => TypeError end).
Proof.
  intros pre line rest v Hlen Hu Ht Hv Hk.
  rewrite load_lines_decode, skipn_app_le by assumption.
  rewrite decode_untagged_prefix by assumption.
  rewrite decode_cons.
  apply tagged_inv in Ht. destruct Ht as [Hl Hp]. rewrite Hl, Hp, Hv.
  cbn [rbind].
  assert (Hobj : forall f, v <> VBoxFunction f).
  { intros f. unfold literal_eval in Hv.
    destruct (parse (drop 4 line)) as [e| | |]; try discriminate.
    cbn [rbind] in Hv. now apply (literal_no_object e). }
  destruct v; cbn [subscript rbind]; try reflexivity.
  - now rewrite Hk.
  - now destruct (Hobj f).
Qed.

(** The theorem on a class-level line that holds the capture region
    only, and on one whose payload is a list. *)
Lemma load_lines_without_directory_witness :
  load_lines [NL; NL; NL; ln "import os"; ln "# c {'screen_box': [0, 0, 5, 5]}";
              ln "# f 1"]
  = Raise KeyError
  /\ load_lines [NL; NL; NL; ln "# c ['directory', 'd']"] = Raise TypeError.
Proof.
  split.
  - apply (load_lines_without_directory [NL; NL; NL; ln "import os"]
             (ln "# c {'screen_box': [0, 0, 5, 5]}") [ln "# f 1"]
             (VDict [(VStr "screen_box", VList [VInt 0; VInt 0; VInt 5; VInt 5])]));
      [cbn; lia | reflexivity | reflexivity | reflexivity | reflexivity].
  - apply (load_lines_without_directory [NL; NL; NL]
             (ln "# c ['directory', 'd']") []
             (VList [VStr "directory"; VStr "d"]));
      [cbn; lia | reflexivity | reflexivity | reflexivity | reflexivity].
Defined.

(** ** Line ends of another host *)






(** ** Decoding what a failed encoder left *)

(** The decoder on the header: the directory of the class-level line,
    and then the lines after the header. *)
Lemma decode_header name sb dir tail :
  plain dir = true ->
  decode (skipn 3 (map ln (header_lines name sb dir) ++ tail)%list) VNone []
  = decode tail (VStr dir) [].
Proof.
  intros Hd. cbn [header_lines map app skipn].
  do 6 (rewrite decode_untagged by reflexivity).
  rewrite (decode_untagged (ln (class_line name))) by reflexivity.
  rewrite decode_cons.
  change (String.length (ln (class_meta_line sb dir)) <? 4)%nat with false.
  change (take 3 (ln (class_meta_line sb dir)) =? "# c") with true.
  cbv iota.
  rewrite drop_class_meta_line, literal_eval_class_payload by assumption.
  cbn [rbind]. change (subscript _ "directory") with (Ok (A:=pyval) (VStr dir)).
  cbn [rbind skipn].
  do 4 (rewrite decode_untagged by reflexivity).
  rewrite (decode_untagged (ln (grab_line sb)))
    by (unfold grab_line; destruct (truthy sb); reflexivity).
  do 3 (rewrite decode_untagged by reflexivity).
  reflexivity.
Qed.

Lemma functions_lines_safe (fs : list BoxFunction) :
  forallb quotable fs = true ->
  forallb line_safe (flat_map function_lines fs) = true.
Proof.
  induction fs as [|f fs IH]; intros H; [reflexivity|].
  cbn [forallb] in H. apply andb_prop in H. destruct H as [Hf Hfs].
  cbn [flat_map]. rewrite forallb_app, IH, andb_true_r by assumption.
  pose proof (quotable_safe f Hf) as Hs. rewrite !andb_true_iff in Hs.
  destruct Hs as [[H1 H2] H3]. now apply function_lines_safe.
Qed.

(** The decoder on a header followed by the lines of rules, and by
    nothing else. *)
Lemma load_lines_truncated name sb dir fs :
  plain dir = true ->
  forallb portable fs = true ->
  load_lines (map ln (header_lines name sb dir ++ flat_map function_lines fs))
  = Ok (VTuple [VStr dir; VList (map VBoxFunction fs)]).
Proof.
  intros Hd Hp.
  rewrite load_lines_decode, map_app, decode_header by assumption.
  destruct fs as [|f fs]; [reflexivity|].
  rewrite <- (List.app_nil_r (map ln (flat_map function_lines (f :: fs)))).
  rewrite decode_rules by (revert Hp; apply forallb_impl, portable_quotable).
  rewrite construct_all_portable by assumption. reflexivity.
Qed.

(** X11: when the encoder stops with [IndexError] at a rule with a
    short box, the file it leaves is a well-formed artifact of the rules
    before that one: decoding it returns the directory and these rules,
    in order (the class name holding no line end, the directory no
    quote, backslash or line end, and the rules written being
    portable). *)
Theorem load_library_after_a_short_box :
  forall fs destination screen_box directory pre f post,
    line_safe (basename (normpath destination)) = true ->
    plain directory = true ->
    forallb portable pre = true ->
    long_box f = false ->
    load_library
      (fst (create_library fs destination screen_box directory (pre ++ f :: post)))
      (destination ++ ".py")
    = Ok (VTuple [VStr directory; VList (map VBoxFunction pre)]).
Proof.
  intros fs destination sb dir pre f post Hn Hd Hp Hf.
  rewrite create_library_short;
    [| revert Hp; apply forallb_impl, portable_long | assumption].
  cbn [fst]. unfold load_library. rewrite fs_read_write.
  rewrite readlines_lns.
  - now apply load_lines_truncated.
  - rewrite forallb_app, header_lines_safe; [| assumption | now apply plain_line].
    apply functions_lines_safe. revert Hp. apply forallb_impl, portable_quotable.
Qed.

(** The theorem on a library whose third rule has a box of three
    entries. *)
Lemma load_library_after_a_short_box_witness :
  load_library
    (fst (create_library [] "/tmp/lib" None "./out"
            [score; price; mkBoxFunction "short" "string" [1; 2; 3]%Z None; score]))
    "/tmp/lib.py"
  = Ok (VTuple [VStr "./out"; VList [VBoxFunction score; VBoxFunction price]]).
Proof.
  apply (load_library_after_a_short_box [] "/tmp/lib" None "./out" [score; price]
           (mkBoxFunction "short" "string" [1; 2; 3]%Z None) [score]);
    reflexivity.
Defined.

(** X12: when the class name holds no line end and the directory no
    single quote, backslash, line end or NUL, the file that the encoder
    leaves when it is given no rule (and raises [UnboundLocalError])
    decodes without an error, to the directory and the empty list of
    rules. *)
Theorem load_library_after_no_rule :
  forall fs destination screen_box directory,
    line_safe (basename (normpath destination)) = true ->
    plain directory = true ->
    load_library
      (fst (create_library fs destination screen_box directory []))
      (destination ++ ".py")
    = Ok (VTuple [VStr directory; VList []]).
Proof.
  intros fs destination sb dir Hn Hd.
  rewrite create_library_empty. cbn [fst].
  unfold load_library. rewrite fs_read_write.
  rewrite readlines_lns by (apply header_lines_safe; [assumption|now apply plain_line]).
  rewrite <- (List.app_nil_r (header_lines _ sb dir)).
  now apply (load_lines_truncated _ sb dir []).
Qed.

(** The theorem on the destination and the directory of the example. *)
Lemma load_library_after_no_rule_witness :
  load_library (fst (create_library [] "/tmp/lib" (Some [0; 0; 200; 100]%Z) "./out" []))
    "/tmp/lib.py"
  = Ok (VTuple [VStr "./out"; VList []]).
Proof.
  apply (load_library_after_no_rule [] "/tmp/lib" (Some [0; 0; 200; 100]%Z) "./out");
    reflexivity.
Defined.

(** ** The artifact determines the library *)

Lemma map_VBoxFunction_inj (a : list BoxFunction) : forall b,
  map VBoxFunction a = map VBoxFunction b -> a = b.
Proof.
  induction a as [|x a IH]; intros [|y b] H; try discriminate; [reflexivity|].
  cbn [map] in H. injection H as Hx Hr. subst y. f_equal. now apply IH.
Qed.

Lemma map_VInt_inj (a : list Z) : forall b, map VInt a = map VInt b -> a = b.
Proof.
  induction a as [|x a IH]; intros [|y b] H; try discriminate; [reflexivity|].
  cbn [map] in H. injection H as Hx Hr. subst y. f_equal. now apply IH.
Qed.

Lemma screen_box_value_inj sb sb' :
  screen_box_value sb = screen_box_value sb' -> sb = sb'.
Proof.
  destruct sb as [l|], sb' as [l'|]; cbn [screen_box_value]; intros H;
    try discriminate; [|reflexivity].
  injection H as H. f_equal. now apply map_VInt_inj.
Qed.

(** X13: on portable libraries the encoder is injective: when the files
    written for two libraries hold the same text, the two libraries have
    the same capture region, the same directory and the same rules. *)
Theorem artifact_determines_the_library :
  forall fs fs' destination destination' screen_box screen_box'
         directory directory' functions functions',
    line_safe (basename (normpath destination)) = true ->
    line_safe (basename (normpath destination')) = true ->
    plain directory = true -> plain directory' = true ->
    functions <> [] -> functions' <> [] ->
    forallb portable functions = true -> forallb portable functions' = true ->
    fs_read (destination ++ ".py")
      (fst (create_library fs destination screen_box directory functions))
    = fs_read (destination' ++ ".py")
        (fst (create_library fs' destination' screen_box' directory' functions')) ->
    screen_box = screen_box' /\ directory = directory' /\ functions = functions'.
Proof.
  intros fs fs' dest dest' sb sb' dir dir' fns fns' Hn Hn' Hd Hd' Hne Hne' Hp Hp' E.
  split.
  - destruct (class_line_in_file fs dest sb dir fns Hn Hd) as [L T].
    destruct (class_line_in_file fs' dest' sb' dir' fns' Hn' Hd') as [L' T'].
    unfold written_lines in L, L'. rewrite E, L' in L.
    pose proof (f_equal (fun o => match o with
                                  | Some l => literal_eval (drop 4 l)
                                  | None => Unmodelled
                                  end) L) as P.
    cbv beta iota in P. rewrite T, T' in P.
    apply screen_box_value_inj. congruence.
  - destruct (exists_last_fn fns Hne) as (init & last & F).
    destruct (exists_last_fn fns' Hne') as (init' & last' & F').
    assert (R : load_library (fst (create_library fs dest sb dir fns)) (dest ++ ".py")
                = load_library (fst (create_library fs' dest' sb' dir' fns'))
                    (dest' ++ ".py"))
      by (unfold load_library; now rewrite E).
    rewrite F, F' in R.
    rewrite !load_created in R;
      try assumption;
      try (rewrite <- F; revert Hp; apply forallb_impl;
           first [apply portable_quotable | apply portable_long]);
      try (rewrite <- F'; revert Hp'; apply forallb_impl;
           first [apply portable_quotable | apply portable_long]).
    rewrite <- F, <- F' in R.
    rewrite !construct_all_portable in R by assumption.
    cbn [rbind app] in R. injection R as Rd Rf.
    split; [assumption|]. now apply map_VBoxFunction_inj.
Qed.

(** The theorem on two libraries written to different destinations of
    the same base name. *)
Lemma artifact_determines_the_library_witness :
  Some [0; 0; 200; 100]%Z = Some [0; 0; 200; 100]%Z
  /\ "./out" = "./out" /\ [price; score] = [price; score].
Proof.
  apply (artifact_determines_the_library [] [("x", "y")] "/tmp/lib" "lib"
           (Some [0; 0; 200; 100]%Z) (Some [0; 0; 200; 100]%Z)
           "./out" "./out" [price; score] [price; score]);
    first [reflexivity | discriminate].
Defined.


(** ** The window of [CreateView.py] *)

Section Window.
Import CreateView CreateViewWindow.

Lemma saved_app a b : saved (a ++ b)%list = (saved a ++ saved b)%list.
Proof.
  induction a as [|e a IH]; [reflexivity|].
  destruct e; cbn [app saved]; rewrite IH; reflexivity.
Qed.

Lemma made_app a b : made (a ++ b)%list = (made a ++ made b)%list.
Proof.
  induction a as [|e a IH]; [reflexivity|].
  destruct e; cbn [app made]; rewrite IH; reflexivity.
Qed.

Lemma grabbed_app a b : grabbed (a ++ b)%list = (grabbed a ++ grabbed b)%list.
Proof.
  induction a as [|e a IH]; [reflexivity|].
  destruct e; cbn [app grabbed]; rewrite IH; reflexivity.
Qed.

Lemma clicks_are_prints cs :
  saved (click_events cs) = [] /\ made (click_events cs) = []
  /\ grabbed (click_events cs) = [].
Proof.
  induction cs as [|c cs (IH1 & IH2 & IH3)]; [repeat split|].
  cbn [click_events flat_map]. fold (click_events cs).
  rewrite saved_app, made_app, grabbed_app, IH1, IH2, IH3.
  destruct c; repeat split.
Qed.

Lemma makedirs_events l :
  saved (map Makedirs l) = [] /\ made (map Makedirs l) = l
  /\ grabbed (map Makedirs l) = [].
Proof.
  induction l as [|p l (IH1 & IH2 & IH3)]; [repeat split|].
  cbn [map saved made grabbed]. rewrite IH2. repeat split; assumption.
Qed.

Lemma saved_loop clock clicks region tf fuel : forall k n,
  saved (loop_events clock clicks region tf fuel k n)
  = map (fun j => "./" ++ tf ++ "/" ++ strftime "_" (clock (n + j)%nat) ++ ".png")
      (seq 0 fuel).
Proof.
  induction fuel as [|fuel IH]; intros k n; [reflexivity|].
  cbn [loop_events saved seq map]. rewrite saved_app, IH.
  destruct (clicks_are_prints (clicks k)) as (E & _ & _). rewrite E. cbn [app].
  rewrite Nat.add_0_r. f_equal.
  rewrite <- seq_shift, map_map. apply map_ext. intros j.
  now rewrite Nat.add_succ_r.
Qed.

Lemma made_loop clock clicks region tf fuel : forall k n,
  made (loop_events clock clicks region tf fuel k n) = [].
Proof.
  induction fuel as [|fuel IH]; intros k n; [reflexivity|].
  cbn [loop_events made]. rewrite made_app, IH.
  destruct (clicks_are_prints (clicks k)) as (_ & E & _). now rewrite E.
Qed.

Lemma grabbed_loop clock clicks region tf fuel : forall k n,
  grabbed (loop_events clock clicks region tf fuel k n) = repeat region fuel.
Proof.
  induction fuel as [|fuel IH]; intros k n; [reflexivity|].
  cbn [loop_events grabbed repeat]. rewrite grabbed_app, IH.
  destruct (clicks_are_prints (clicks k)) as (_ & _ & E). now rewrite E.
Qed.

(** X14: the frames of a session are saved, in the order of the
    captures, into the folder named after the time at which the start
    button was clicked; the name of the frame of turn [k] is the time
    read from the clock after the capture of that turn, the clock being
    read once for the folder and once a turn.  Nothing else is saved. *)
Theorem frames_are_saved_in_the_session_folder :
  forall clock clicks n v w,
    saved (trace (snd (fst (onclicked_start clock clicks n v w))))
    = (saved (trace w)
       ++ map (fun k => frame_path (clock (now_calls w))
                          (clock (S (now_calls w) + k)%nat))
            (seq 0 n))%list
    /\ now_calls (snd (fst (onclicked_start clock clicks n v w)))
       = (S (now_calls w) + n)%nat.
Proof.
  intros clock clicks n v w.
  destruct (CaptureLoop.onclicked_start_runs clock clicks n v w)
    as (region & folder & l & E & _ & Hf & _).
  rewrite E. cbn [fst snd trace now_calls]. split; [|reflexivity].
  rewrite saved_app. cbn [saved]. rewrite saved_app, saved_loop.
  destruct (makedirs_events l) as (El & _ & _). rewrite El. cbn [app].
  subst folder. reflexivity.
Qed.

(** X15: the handler of the start button creates the folder of the
    session exactly when it is not there: [os.makedirs] is called at
    most once, never on a folder that exists, and after the call the
    folder exists; no other folder is created. *)
Theorem session_folder_is_made_when_absent :
  forall clock clicks n v w,
    let folder := "./" ++ strftime ":" (clock (now_calls w)) in
    let w' := snd (fst (onclicked_start clock clicks n v w)) in
    let new := if existsb (String.eqb folder) (dirs w) then [] else [folder] in
    made (trace w') = (made (trace w) ++ new)%list
    /\ dirs w' = (new ++ dirs w)%list
    /\ existsb (String.eqb folder) (dirs w') = true.
Proof.
  intros clock clicks n v w folder w' new. subst w'.
  destruct (CaptureLoop.onclicked_start_runs clock clicks n v w)
    as (region & tf & l & E & _ & Hf & Hl).
  rewrite E. cbn [fst snd trace dirs]. subst tf.
  fold folder in Hl. fold new in Hl. subst l.
  split; [|split].
  - rewrite made_app. cbn [made]. rewrite made_app, made_loop.
    destruct (makedirs_events new) as (_ & El & _). rewrite El.
    now rewrite List.app_nil_r.
  - reflexivity.
  - subst new. destruct (existsb (String.eqb folder) (dirs w)) eqn:X.
    + exact X.
    + cbn [app existsb]. now rewrite String.eqb_refl.
Qed.

(** *** The names of the frames *)

Lemma pad2_length (n : nat) : (n < 100)%nat -> String.length (pad2 n) = 2%nat.
Proof.
  intros H.
  assert (T : forallb (fun n => (String.length (pad2 n) =? 2)%nat) (seq 0 100) = true)
    by (vm_compute; reflexivity).
  rewrite forallb_forall in T. apply Nat.eqb_eq, T, in_seq. lia.
Qed.

Lemma pad2_inj (n m : nat) :
  (n < 100)%nat -> (m < 100)%nat -> pad2 n = pad2 m -> n = m.
Proof.
  intros Hn Hm E.
  assert (T : forallb (fun n => forallb (fun m => implb (pad2 n =? pad2 m) (n =? m)%nat)
                                  (seq 0 100)) (seq 0 100) = true)
    by (vm_compute; reflexivity).
  rewrite forallb_forall in T.
  assert (In n (seq 0 100)) as Xn by (apply in_seq; lia).
  specialize (T n Xn). rewrite forallb_forall in T.
  assert (In m (seq 0 100)) as Xm by (apply in_seq; lia).
  specialize (T m Xm). rewrite E, String.eqb_refl in T. cbn [implb] in T.
  now apply Nat.eqb_eq.
Qed.

Lemma append_inj_length (a : string) : forall a' x x',
  String.length a = String.length a' -> a ++ x = a' ++ x' -> a = a' /\ x = x'.
Proof.
  induction a as [|c a IH]; intros [|c' a'] x x' L E; try discriminate.
  - now split.
  - cbn [String.length] in L. cbn [append] in E. injection E as Ec Er.
    destruct (IH a' x x') as [Ha Hx]; [lia|assumption|].
    subst. now split.
Qed.

Lemma strftime_inj (sep : string) (t t' : datetime) :
  two_digits t = true -> two_digits t' = true ->
  strftime sep t = strftime sep t' -> t = t'.
Proof.
  unfold two_digits. rewrite !andb_true_iff, !Nat.ltb_lt.
  intros [[[[H1 H2] H3] H4] H5] [[[[H1' H2'] H3'] H4'] H5'] E.
  unfold strftime in E.
  apply append_inj_length in E; [|now rewrite !pad2_length]. destruct E as [E1 E].
  apply append_inj_length in E; [|now rewrite !pad2_length]. destruct E as [E2 E].
  cbn [append] in E. injection E as E.
  apply append_inj_length in E; [|now rewrite !pad2_length]. destruct E as [E3 E].
  apply append_inj_length in E; [|reflexivity]. destruct E as [_ E].
  apply append_inj_length in E; [|now rewrite !pad2_length]. destruct E as [E4 E].
  apply append_inj_length in E; [|reflexivity]. destruct E as [_ E5].
  apply pad2_inj in E1, E2, E3, E4, E5; try assumption.
  destruct t, t'. cbn [month day hour minute second] in *. now subst.
Qed.

Lemma strftime_length (sep : string) (t : datetime) :
  two_digits t = true ->
  String.length (strftime sep t) = (11 + 2 * String.length sep)%nat.
Proof.
  unfold two_digits. rewrite !andb_true_iff, !Nat.ltb_lt.
  intros [[[[H1 H2] H3] H4] H5]. unfold strftime.
  rewrite !length_append_s, !pad2_length by assumption.
  cbn [String.length]. lia.
Qed.

(** X18: within a session two frames are saved to the same path, the
    later one replacing the earlier one, exactly when the clock read the
    same month, day, hour, minute and second after both captures: the
    name of a frame holds these five fields and nothing else, with two
    digits each. *)
Theorem frames_collide_within_the_same_second :
  forall t0 t t',
    two_digits t = true -> two_digits t' = true ->
    (frame_path t0 t = frame_path t0 t' <-> t = t').
Proof.
  intros t0 t t' Ht Ht'. split; [|now intros ->].
  unfold frame_path. intros E.
  apply append_inj_length in E; [|reflexivity]. destruct E as [_ E].
  apply append_inj_length in E; [|reflexivity]. destruct E as [_ E].
  apply append_inj_length in E; [|reflexivity]. destruct E as [_ E].
  apply append_inj_length in E; [|now rewrite !strftime_length].
  destruct E as [E _]. now apply (strftime_inj "_").
Qed.

(** The theorem on two times of the same minute. *)
Lemma frames_collide_within_the_same_second_witness :
  frame_path (mkDatetime 11 4 9 30 0) (mkDatetime 11 4 9 30 7)
  = frame_path (mkDatetime 11 4 9 30 0) (mkDatetime 11 4 9 30 8)
  <-> mkDatetime 11 4 9 30 7 = mkDatetime 11 4 9 30 8.
Proof.
  apply (frames_collide_within_the_same_second (mkDatetime 11 4 9 30 0)
           (mkDatetime 11 4 9 30 7) (mkDatetime 11 4 9 30 8));
    reflexivity.
Defined.

(** *** The region of the captures *)

(** The handlers that return leave the attribute [box] at 0 and take
    captures of the whole screen only. *)
Lemma handle_keeps_box h win w :
  box (attributes win) = VInt 0 ->
  box (attributes (fst (handle h win w))) = VInt 0
  /\ exists m, grabbed (trace (snd (handle h win w)))
               = (grabbed (trace w) ++ repeat None m)%list.
Proof.
  intros H. destruct h as [|keyboard mouse|checked|checked r]; cbn [handle].
  - unfold onclicked_stop, emit. cbn [fst snd attributes trace].
    split; [assumption|]. exists 0%nat. now rewrite grabbed_app.
  - unfold onclicked_analyse, emit. cbn [fst snd attributes trace].
    split; [assumption|]. exists 0%nat. rewrite !grabbed_app.
    cbn [grabbed repeat]. now rewrite !List.app_nil_r.
  - unfold full_screen_radb. destruct checked; cbn [fst snd attributes box];
      (split; [first [assumption | reflexivity]|]);
      exists 0%nat; now rewrite List.app_nil_r.
  - unfold box_screen_radb. destruct checked.
    + destruct r as [[[[x y] width] height]|]; unfold emit;
        cbn [fst snd attributes trace]; (split; [assumption|]);
        exists 1%nat; rewrite !grabbed_app; cbn [grabbed repeat app];
        now rewrite ?List.app_nil_r.
    + cbn [fst snd]. split; [assumption|]. exists 0%nat.
      now rewrite List.app_nil_r.
Qed.

Lemma handle_all_keeps_box hs : forall win w,
  box (attributes win) = VInt 0 ->
  box (attributes (fst (handle_all hs win w))) = VInt 0
  /\ exists m, grabbed (trace (snd (handle_all hs win w)))
               = (grabbed (trace w) ++ repeat None m)%list.
Proof.
  induction hs as [|h hs IH]; intros win w H.
  - cbn [handle_all fst snd]. split; [assumption|]. exists 0%nat.
    now rewrite List.app_nil_r.
  - cbn [handle_all].
    destruct (handle_keeps_box h win w H) as (Hb & m & Hm).
    destruct (handle h win w) as [win' w']. cbn [fst snd] in Hb, Hm.
    destruct (IH win' w' Hb) as (Hb' & m' & Hm').
    split; [assumption|]. exists (m + m')%nat.
    now rewrite Hm', Hm, <- List.app_assoc, repeat_app.
Qed.

(** X16: no handler of the window assigns the rectangle selected to
    [self.box]: after the constructor and any sequence of clicks on the
    stop and analyse buttons and of changes of the two radio buttons,
    whatever rectangles were selected, [self.box] is 0; hence the
    capture loop entered by the start button takes the branch of the
    whole screen, and every capture of the window, in the selection and
    in the loop, is of the whole screen. *)
Theorem every_capture_is_of_the_whole_screen :
  forall hs frequency mode w clock clicks n,
    let r := handle_all hs (init frequency mode) w in
    box (attributes (fst r)) = VInt 0
    /\ exists m,
         (n <= m)%nat
         /\ grabbed (trace (snd (fst (onclicked_start clock clicks n
                                        (attributes (fst r)) (snd r)))))
            = (grabbed (trace w) ++ repeat None m)%list.
Proof.
  intros hs frequency mode w clock clicks n r. subst r.
  destruct (handle_all_keeps_box hs (init frequency mode) w eq_refl)
    as (Hb & m & Hm).
  split; [assumption|].
  destruct (CaptureLoop.onclicked_start_runs clock clicks n
              (attributes (fst (handle_all hs (init frequency mode) w)))
              (snd (handle_all hs (init frequency mode) w)))
    as (region & folder & l & E & Hr & _ & _).
  rewrite Hb in Hr. cbn [is_int] in Hr. subst region.
  rewrite E. cbn [fst snd trace].
  exists (m + n)%nat. split; [lia|].
  rewrite grabbed_app. cbn [grabbed]. rewrite grabbed_app, grabbed_loop.
  destruct (makedirs_events l) as (_ & _ & El). rewrite El. cbn [app].
  now rewrite Hm, <- List.app_assoc, repeat_app.
Qed.

End Window.
